(** * wasender: the campaign controller and its log, verified

    A shallow embedding of [src/types.ts], which holds the type
    declarations of [types.ts] and the [App] component: the handlers
    [validateConfig], [handleStartCampaign], [executeStartCampaign],
    [handleStopCampaign], [handlePauseCampaign], [handleResumeCampaign],
    [handleSkipNumber], [processNextNumber], [startSendAction],
    [handleUpdateDeliveryStatus] and [currentActionInfo], together with the part of the JavaScript
    platform they rely on ([setTimeout]/[clearTimeout] and the clock).

    Modelling decisions:
    - a JavaScript string is the list of its UTF-16 code units;
    - a [number] holding a delay is an integer ([Z]; fractions and [NaN]
      are left out); a position is a [nat]; a log index is a [Z];
    - the React state of [App], its two refs and the timer queue of the
      event loop form one record [State]; a handler is a function
      [State -> State] (all [setX] calls of one handler are applied
      together, as React batches them);
    - a timer callback is data ([Callback]): the two closures passed to
      [setTimeout] are [NextCb index] and [SendCb index];
    - [new Date().toLocaleTimeString()] is the reading of the model's clock;
    - [config] is fixed while a campaign runs;
    - the components around [App] ([ConfigPanel], [CampaignView],
      [ConfirmationDialog]) are not modelled: what the operator can do is a
      sequence of handler calls, see [Op], [anyCall] and [inProtocol]. *)

From Stdlib Require Import ZArith NArith PArith List Bool String Ascii Lia.
From stdpp Require Import base option list gmap strings.

Set Default Proof Using "Type".

(** ** JavaScript values *)

Abbreviation jsstring := (list N).

(** An ASCII literal of the source as a list of code units. *)
Definition lit (s : string) : jsstring :=
  List.map N_of_ascii (list_ascii_of_string s).
Arguments lit _%_string : simpl never.

(** [`${x}`] for a value that may be [undefined]. *)
Definition interpolate (x : option jsstring) : jsstring :=
  match x with
  | Some v => v
  | None => lit "undefined"
  end.

(** Truthiness of a string: only the empty string is falsy. *)
Definition truthy (s : jsstring) : bool :=
  match s with
  | [] => false
  | _ :: _ => true
  end.

(** [arr[i]] for a number [i] holding an integer: [undefined] out of range. *)
Definition jsGet {A : Type} (arr : list A) (i : Z) : option A :=
  if (i <? 0)%Z then None else arr !! Z.to_nat i.

(** ** types.ts *)

Inductive AppState := Idle | WaitingForNext | WaitingForSend | Finished.
Inductive CampaignStatus := stopped | running | paused | finished.
Inductive DeliveryStatus := Pending | Delivered | Read.

Record File := { name : jsstring }.

Record CampaignConfig := {
  message1 : jsstring;
  file1 : option File;
  message2 : jsstring;
  file2 : option File;
  numbers : list jsstring;
  delayBetween : Z;
  sendActionDelay : Z;
  monitorNumber : jsstring;
  monitorMessages : list jsstring
}.

(** [LogEntry['status']] *)
Inductive Tag := SUCCESS | ERROR | INFO | SKIPPED.

(** [LogEntry['data']]; every field is optional in the source. *)
Module LogData.

Inductive Outcome := SENT | FAILED | SKIPPED.

Record t := {
  number : option jsstring;
  status : option Outcome;
  message : option jsstring;
  file : option jsstring;
  deliveryStatus : option DeliveryStatus
}.

(** [data.deliveryStatus = newStatus] *)
Definition setDeliveryStatus (v : DeliveryStatus) (d : t) : t :=
  {| number := number d; status := status d; message := message d;
     file := file d; deliveryStatus := Some v |}.

End LogData.

Record LogEntry := {
  timestamp : Z;
  message : jsstring;
  status : Tag;
  data : option LogData.t
}.

(** [entry.data.deliveryStatus = newStatus] on an entry that has [data]. *)
Definition withData (d : LogData.t) (e : LogEntry) : LogEntry :=
  {| timestamp := timestamp e; message := message e; status := status e;
     data := Some d |}.

#[global] Instance AppState_eq_dec : EqDecision AppState.
Proof. solve_decision. Defined.
#[global] Instance CampaignStatus_eq_dec : EqDecision CampaignStatus.
Proof. solve_decision. Defined.
#[global] Instance DeliveryStatus_eq_dec : EqDecision DeliveryStatus.
Proof. solve_decision. Defined.
#[global] Instance Tag_eq_dec : EqDecision Tag.
Proof. solve_decision. Defined.

(** ** The event loop's timers and the state of [App] *)

(** The two closures handed to [setTimeout]: the one of [processNextNumber]
    (it calls [startSendAction index]) and the one of [startSendAction]. *)
Inductive Callback :=
  | NextCb (index : nat)
  | SendCb (index : nat).

(** A timer that is armed: its handle (a positive integer, hence truthy),
    the time from which it may fire, and what it runs. *)
Record Timer := {
  tid : positive;
  due : Z;
  callback : Callback
}.

Record State := {
  appState : AppState;
  campaignStatus : CampaignStatus;
  log : list LogEntry;
  currentNumberIndex : nat;
  isConfirmationOpen : bool;
  errors : gmap string string;
  timerRef : option positive;
  actionTimerRef : option positive;
  clock : Z;
  nextTimerId : positive;
  pending : list Timer
}.

(** [App] as first rendered, with no timer ever armed. *)
Definition initialState : State :=
  {| appState := Idle; campaignStatus := stopped; log := [];
     currentNumberIndex := 0; isConfirmationOpen := false; errors := ∅;
     timerRef := None; actionTimerRef := None;
     clock := 0; nextTimerId := 1; pending := [] |}.

Definition setAppState (v : AppState) (s : State) : State :=
  {| appState := v; campaignStatus := campaignStatus s; log := log s;
     currentNumberIndex := currentNumberIndex s;
     isConfirmationOpen := isConfirmationOpen s; errors := errors s;
     timerRef := timerRef s; actionTimerRef := actionTimerRef s;
     clock := clock s; nextTimerId := nextTimerId s; pending := pending s |}.

Definition setCampaignStatus (v : CampaignStatus) (s : State) : State :=
  {| appState := appState s; campaignStatus := v; log := log s;
     currentNumberIndex := currentNumberIndex s;
     isConfirmationOpen := isConfirmationOpen s; errors := errors s;
     timerRef := timerRef s; actionTimerRef := actionTimerRef s;
     clock := clock s; nextTimerId := nextTimerId s; pending := pending s |}.

(** [setLog(f)] with an updater [f]. *)
Definition setLog (f : list LogEntry -> list LogEntry) (s : State) : State :=
  {| appState := appState s; campaignStatus := campaignStatus s;
     log := f (log s);
     currentNumberIndex := currentNumberIndex s;
     isConfirmationOpen := isConfirmationOpen s; errors := errors s;
     timerRef := timerRef s; actionTimerRef := actionTimerRef s;
     clock := clock s; nextTimerId := nextTimerId s; pending := pending s |}.

Definition setCurrentNumberIndex (v : nat) (s : State) : State :=
  {| appState := appState s; campaignStatus := campaignStatus s; log := log s;
     currentNumberIndex := v;
     isConfirmationOpen := isConfirmationOpen s; errors := errors s;
     timerRef := timerRef s; actionTimerRef := actionTimerRef s;
     clock := clock s; nextTimerId := nextTimerId s; pending := pending s |}.

Definition setConfirmationOpen (v : bool) (s : State) : State :=
  {| appState := appState s; campaignStatus := campaignStatus s; log := log s;
     currentNumberIndex := currentNumberIndex s;
     isConfirmationOpen := v; errors := errors s;
     timerRef := timerRef s; actionTimerRef := actionTimerRef s;
     clock := clock s; nextTimerId := nextTimerId s; pending := pending s |}.

Definition setErrors (v : gmap string string) (s : State) : State :=
  {| appState := appState s; campaignStatus := campaignStatus s; log := log s;
     currentNumberIndex := currentNumberIndex s;
     isConfirmationOpen := isConfirmationOpen s; errors := v;
     timerRef := timerRef s; actionTimerRef := actionTimerRef s;
     clock := clock s; nextTimerId := nextTimerId s; pending := pending s |}.

(** [timerRef.current = v] *)
Definition setTimerRef (v : option positive) (s : State) : State :=
  {| appState := appState s; campaignStatus := campaignStatus s; log := log s;
     currentNumberIndex := currentNumberIndex s;
     isConfirmationOpen := isConfirmationOpen s; errors := errors s;
     timerRef := v; actionTimerRef := actionTimerRef s;
     clock := clock s; nextTimerId := nextTimerId s; pending := pending s |}.

(** [actionTimerRef.current = v] *)
Definition setActionTimerRef (v : option positive) (s : State) : State :=
  {| appState := appState s; campaignStatus := campaignStatus s; log := log s;
     currentNumberIndex := currentNumberIndex s;
     isConfirmationOpen := isConfirmationOpen s; errors := errors s;
     timerRef := timerRef s; actionTimerRef := v;
     clock := clock s; nextTimerId := nextTimerId s; pending := pending s |}.

Definition setClock (v : Z) (s : State) : State :=
  {| appState := appState s; campaignStatus := campaignStatus s; log := log s;
     currentNumberIndex := currentNumberIndex s;
     isConfirmationOpen := isConfirmationOpen s; errors := errors s;
     timerRef := timerRef s; actionTimerRef := actionTimerRef s;
     clock := v; nextTimerId := nextTimerId s; pending := pending s |}.

Definition setQueue (n : positive) (q : list Timer) (s : State) : State :=
  {| appState := appState s; campaignStatus := campaignStatus s; log := log s;
     currentNumberIndex := currentNumberIndex s;
     isConfirmationOpen := isConfirmationOpen s; errors := errors s;
     timerRef := timerRef s; actionTimerRef := actionTimerRef s;
     clock := clock s; nextTimerId := n; pending := q |}.

(** The queue without the timer of handle [id]. *)
Definition dequeue (id : positive) (q : list Timer) : list Timer :=
  List.filter (fun t => negb (Pos.eqb (tid t) id)) q.

(** [setTimeout(cb, delay)]: a fresh handle; a negative delay counts as 0.
    The delay is taken as the integer it is: the platform's conversion of
    the delay to a signed 32-bit integer (a delay above 2147483647 ms runs
    almost at once) is not modelled, so a statement about a due time or
    about elapsed time holds for delays below that bound. *)
Definition setTimeout (cb : Callback) (delay : Z) (s : State) : positive * State :=
  let id := nextTimerId s in
  (id, setQueue (Pos.succ id)
         (pending s ++ [{| tid := id; due := (clock s + Z.max 0 delay)%Z;
                           callback := cb |}]) s).

(** [if (ref.current) clearTimeout(ref.current)]: [null] is falsy, a handle
    is truthy; clearing a handle that is not armed does nothing. *)
Definition clearTimeout (ref : option positive) (s : State) : State :=
  match ref with
  | Some id => setQueue (nextTimerId s) (dequeue id (pending s)) s
  | None => s
  end.

(** The timer the event loop runs next: the earliest due, and among equals
    the one armed first. *)
Definition earlier (a b : Timer) : bool :=
  (due a <? due b)%Z || ((due a =? due b)%Z && (tid a <=? tid b)%positive).

Fixpoint nextDue (q : list Timer) : option Timer :=
  match q with
  | [] => None
  | t :: r =>
      match nextDue r with
      | None => Some t
      | Some u => Some (if earlier t u then t else u)
      end
  end.

(** ** String helpers of the validator *)

(** WhiteSpace and LineTerminator code units, the ones [trim] strips. *)
Definition isWhiteSpace (c : N) : bool :=
  ((9 <=? c) && (c <=? 13) || (c =? 32) || (c =? 160) || (c =? 5760)
   || (8192 <=? c) && (c <=? 8202) || (c =? 8232) || (c =? 8233)
   || (c =? 8239) || (c =? 8287) || (c =? 12288) || (c =? 65279))%N.

Fixpoint trimStart (s : jsstring) : jsstring :=
  match s with
  | [] => []
  | c :: r => if isWhiteSpace c then trimStart r else s
  end.

Definition trim (s : jsstring) : jsstring :=
  rev (trimStart (rev (trimStart s))).

(** [\d] *)
Definition isDigit (c : N) : bool := ((48 <=? c) && (c <=? 57))%N.

(** [\d+] up to the end of the input. *)
Definition digitsToEnd (s : jsstring) : bool := truthy s && forallb isDigit s.

(** [/^\+?\d+$/.test(s)]: when the input starts with [+] the optional [\+?]
    takes it; giving it back cannot help, since [+] is no digit. *)
Definition phoneTest (s : jsstring) : bool :=
  match s with
  | c :: r => if (c =? 43)%N then digitsToEnd r else digitsToEnd s
  | [] => false
  end.

(** ** The [App] component *)

Section App.

Variable config : CampaignConfig.

(** [addLog]: the new entry goes to the front. The source stamps it with
    [new Date().toLocaleTimeString()], a time-of-day string; the model keeps
    the reading of its clock instead, of which that string is a rendering. *)
Definition addLog (message : jsstring) (status : Tag) (data : option LogData.t)
    (s : State) : State :=
  let timestamp := clock s in
  setLog (fun prevLog =>
            {| timestamp := timestamp; message := message; status := status;
               data := data |} :: prevLog) s.

Definition clearTimers (s : State) : State :=
  let s := clearTimeout (timerRef s) s in
  let s := clearTimeout (actionTimerRef s) s in
  let s := setTimerRef None s in
  setActionTimerRef None s.

(** The [newErrors] object built by [validateConfig]. *)
Definition newErrors : gmap string string :=
  let e : gmap string string := ∅ in
  let e :=
    if negb (truthy (trim (message1 config))) && negb (truthy (trim (message2 config)))
    then <["messages" := "At least one message template is required."]> e
    else e in
  let e :=
    if length (numbers config) =? 0
    then <["numbers" := "At least one phone number is required."]> e
    else if existsb (fun n => negb (phoneTest n)) (numbers config)
    then <["numbers" := "All phone numbers must be in a valid format (e.g., +1234567890 or 1234567890)."]> e
    else e in
  let e :=
    if (delayBetween config <=? 0)%Z
    then <["delayBetween" := "Delay must be a positive number."]> e
    else e in
  let e :=
    if (sendActionDelay config <=? 0)%Z
    then <["sendActionDelay" := "Action delay must be a positive number."]> e
    else e in
  if truthy (monitorNumber config) && negb (phoneTest (monitorNumber config))
  then <["monitorNumber" := "Monitor number must be a valid phone number."]> e
  else e.

(** [validateConfig]: the result and the state after [setErrors]. *)
Definition validateConfig (s : State) : bool * State :=
  (length (map_to_list newErrors).*1 =? 0, setErrors newErrors s).

Definition handleStartCampaign (s : State) : State :=
  let (ok, s) := validateConfig s in
  if ok then setConfirmationOpen true s else s.

Definition processNextNumber (index : nat) (s : State) : State :=
  if length (numbers config) <=? index then
    let s := setAppState Finished s in
    let s := setCampaignStatus finished s in
    let s := addLog (lit "Campaign finished.") INFO None s in
    clearTimers s
  else
    let s := setAppState WaitingForNext s in
    let delay := if index =? 0 then 0%Z else (delayBetween config * 1000)%Z in
    let (id, s) := setTimeout (NextCb index) delay s in
    setTimerRef (Some id) s.

Definition startSendAction (index : nat) (s : State) : State :=
  let s := setAppState WaitingForSend s in
  let (id, s) := setTimeout (SendCb index) (sendActionDelay config * 1000)%Z s in
  setActionTimerRef (Some id) s.

(** The closure armed by [startSendAction]. The monitor message drawn with
    [Math.random] is not used by the source, only the INFO entry is made. *)
Definition sendCallback (index : nat) (s : State) : State :=
  let sentNumber := numbers config !! index in
  let msgIndex := index mod 2 in
  let msg := if msgIndex =? 0 then message1 config else message2 config in
  let file := if msgIndex =? 0 then file1 config else file2 config in
  let s :=
    addLog (lit "Message presumed SENT to " ++ interpolate sentNumber ++ lit ".")
      SUCCESS
      (Some {| LogData.number := sentNumber;
               LogData.status := Some LogData.SENT;
               LogData.message := Some msg;
               LogData.file := name <$> file;
               LogData.deliveryStatus := Some Pending |}) s in
  let s :=
    if truthy (monitorNumber config) && (0 <? length (monitorMessages config))
    then addLog (lit "Sending monitor message to " ++ monitorNumber config) INFO None s
    else s in
  let nextIndex := index + 1 in
  let s := setCurrentNumberIndex nextIndex s in
  processNextNumber nextIndex s.

Definition runCallback (cb : Callback) (s : State) : State :=
  match cb with
  | NextCb index => startSendAction index s
  | SendCb index => sendCallback index s
  end.

Definition executeStartCampaign (s : State) : State :=
  let s := setLog (fun _ => []) s in
  let s := setCurrentNumberIndex 0 s in
  let s := setCampaignStatus running s in
  let s := addLog (lit "Campaign started.") INFO None s in
  processNextNumber 0 s.

Definition handleStopCampaign (s : State) : State :=
  let s := clearTimers s in
  let s := setAppState Idle s in
  let s := setCampaignStatus stopped s in
  addLog (lit "Campaign stopped by user.") INFO None s.

Definition handlePauseCampaign (s : State) : State :=
  let s := clearTimers s in
  let s := setCampaignStatus paused s in
  addLog (lit "Campaign paused.") INFO None s.

(** [appState] and [currentNumberIndex] are read as rendered, that is as
    they are when the handler starts. *)
Definition handleResumeCampaign (s : State) : State :=
  let appState0 := appState s in
  let currentNumberIndex0 := currentNumberIndex s in
  let s := setCampaignStatus running s in
  let s := addLog (lit "Campaign resumed.") INFO None s in
  match appState0 with
  | WaitingForNext => processNextNumber currentNumberIndex0 s
  | WaitingForSend => startSendAction currentNumberIndex0 s
  | _ => s
  end.

Definition handleSkipNumber (s : State) : State :=
  let currentNumberIndex0 := currentNumberIndex s in
  let s :=
    match actionTimerRef s with
    | Some _ => setActionTimerRef None (clearTimeout (actionTimerRef s) s)
    | None => s
    end in
  let skippedNumber := numbers config !! currentNumberIndex0 in
  let s :=
    addLog (lit "Skipped number: " ++ interpolate skippedNumber) SKIPPED
      (Some {| LogData.number := skippedNumber;
               LogData.status := Some LogData.SKIPPED;
               LogData.message := None;
               LogData.file := None;
               LogData.deliveryStatus := None |}) s in
  let nextIndex := currentNumberIndex0 + 1 in
  let s := setCurrentNumberIndex nextIndex s in
  processNextNumber nextIndex s.

(** [handleUpdateDeliveryStatus]: the entry at [logIndex] is updated in
    place when it exists and has [data]. Every entry of the log is an object
    made by one [addLog] call, so no other index holds the same object. *)
Definition updateDeliveryStatus (logIndex : Z) (newStatus : DeliveryStatus)
    (prevLog : list LogEntry) : list LogEntry :=
  let newLog := prevLog in
  match jsGet newLog logIndex with
  | Some entry =>
      match data entry with
      | Some d =>
          <[Z.to_nat logIndex :=
              withData (LogData.setDeliveryStatus newStatus d) entry]> newLog
      | None => newLog
      end
  | None => newLog
  end.

Definition handleUpdateDeliveryStatus (logIndex : Z) (newStatus : DeliveryStatus)
    (s : State) : State :=
  setLog (updateDeliveryStatus logIndex newStatus) s.

(** ** The event loop and the operator *)

(** The timer of handle [id] fires: it must be the one the event loop runs
    next and be due. It leaves the queue, then its callback runs. *)
Definition fire (id : positive) (s : State) : option State :=
  match nextDue (pending s) with
  | Some t =>
      if (tid t =? id)%positive && (due t <=? clock s)%Z
      then Some (runCallback (callback t)
                   (setQueue (nextTimerId s) (dequeue id (pending s)) s))
      else None
  | None => None
  end.

Inductive Op :=
  | Elapse (dt : Z)      (* time passes *)
  | Fire (id : positive) (* a timer fires *)
  | Skip
  | Pause
  | Resume
  | Stop.

Definition apply (op : Op) (s : State) : option State :=
  match op with
  | Elapse dt => if (0 <=? dt)%Z then Some (setClock (clock s + dt)%Z s) else None
  | Fire id => fire id s
  | Skip => Some (handleSkipNumber s)
  | Pause => Some (handlePauseCampaign s)
  | Resume => Some (handleResumeCampaign s)
  | Stop => Some (handleStopCampaign s)
  end.

(** A sequence of operations, each one allowed by [allow] where it is made. *)
Fixpoint runOps (allow : State -> Op -> bool) (ops : list Op) (s : State)
    : option State :=
  match ops with
  | [] => Some s
  | op :: rest =>
      if allow s op then
        match apply op s with
        | Some s' => runOps allow rest s'
        | None => None
        end
      else None
  end.

(** Every handler call is accepted: the handlers themselves check nothing. *)
Definition anyCall (s : State) (op : Op) : bool := true.

(** Modelled from the spec: when each of the operator's controls is valid.
    The components that offer the controls ([ConfigPanel], [CampaignView])
    are not among the sources; the handlers above check nothing themselves.
    Pause is valid while running, resume while paused, skip while a send
    delay is outstanding (running, in phase WaitingForSend), stop while the
    campaign is running or paused. Time may pass and a timer may fire at any
    point. *)
Definition inProtocol (s : State) (op : Op) : bool :=
  match op with
  | Elapse _ | Fire _ => true
  | Pause => bool_decide (campaignStatus s = running)
  | Resume => bool_decide (campaignStatus s = paused)
  | Skip => bool_decide (campaignStatus s = running)
            && bool_decide (appState s = WaitingForSend)
  | Stop => bool_decide (campaignStatus s = running)
            || bool_decide (campaignStatus s = paused)
  end.

(** The event loop left alone: the clock moves to the next timer's due time
    if it is not there yet, and that timer fires. *)
Definition fireNext (s : State) : option State :=
  match nextDue (pending s) with
  | Some t => fire (tid t) (setClock (Z.max (clock s) (due t)) s)
  | None => None
  end.

Fixpoint run (fuel : nat) (s : State) : State :=
  match fuel with
  | 0 => s
  | S fuel' =>
      match fireNext s with
      | Some s' => run fuel' s'
      | None => s
      end
  end.

End App.

(** ** What the specification's words mean *)

(** A template is blank when it holds white space only, so that trimming
    leaves nothing of it. *)
Definition blank (s : jsstring) : Prop := Forall (fun c => isWhiteSpace c = true) s.

(** The phone-number pattern: an optional [+] (code unit 43), then one or
    more decimal digits (code units 48 to 57), and nothing else. *)
Definition phoneLike (s : jsstring) : Prop :=
  ∃ ds : jsstring,
    ds ≠ [] ∧ Forall (fun c => (48 <= c <= 57)%N) ds ∧ (s = ds ∨ s = 43%N :: ds).

(** When the specification has a start request rejected. *)
Definition mustReject (c : CampaignConfig) : Prop :=
  (blank (message1 c) ∧ blank (message2 c))
  ∨ numbers c = []
  ∨ (∃ n, n ∈ numbers c ∧ ¬ phoneLike n)
  ∨ (delayBetween c <= 0)%Z
  ∨ (sendActionDelay c <= 0)%Z
  ∨ (monitorNumber c ≠ [] ∧ ¬ phoneLike (monitorNumber c)).

(** The five checks of [validateConfig], each naming the field it reports. *)
Definition bothBlank (c : CampaignConfig) : bool :=
  negb (truthy (trim (message1 c))) && negb (truthy (trim (message2 c))).

Definition badNumbers (c : CampaignConfig) : bool :=
  (length (numbers c) =? 0) || existsb (fun n => negb (phoneTest n)) (numbers c).

Definition badMonitor (c : CampaignConfig) : bool :=
  truthy (monitorNumber c) && negb (phoneTest (monitorNumber c)).

(** The payload [handleSkipNumber] gives the entry of a skipped recipient. *)
Definition skippedData (c : CampaignConfig) (s : State) : LogData.t :=
  {| LogData.number := numbers c !! currentNumberIndex s;
     LogData.status := Some LogData.SKIPPED;
     LogData.message := None;
     LogData.file := None;
     LogData.deliveryStatus := None |}.

(** ** Invariants of a campaign *)

(** Handles are issued in increasing order: whatever the refs hold and
    whatever is armed was issued before [nextTimerId]. *)
Definition handlesIssued (s : State) : Prop :=
  (∀ id, timerRef s = Some id → (id < nextTimerId s)%positive)
  ∧ (∀ id, actionTimerRef s = Some id → (id < nextTimerId s)%positive)
  ∧ (∀ t, t ∈ pending s → (tid t < nextTimerId s)%positive).

(** A slot is armed when the handle it holds is the one of a timer that is
    still to fire. *)
Definition slotArmed (ref : option positive) (s : State) : bool :=
  match ref with
  | Some id => existsb (fun t => (tid t =? id)%positive) (pending s)
  | None => false
  end.

(** Status, phase, position and timers fit together: while running exactly
    one timer is armed, the one of the phase, held by the phase's slot and
    for the current position; otherwise none is. *)
Definition consistent (c : CampaignConfig) (s : State) : Prop :=
  handlesIssued s
  ∧ match campaignStatus s, appState s with
    | running, WaitingForNext =>
        currentNumberIndex s < length (numbers c)
        ∧ ∃ t, pending s = [t] ∧ timerRef s = Some (tid t)
               ∧ actionTimerRef s ≠ Some (tid t)
               ∧ callback t = NextCb (currentNumberIndex s)
    | running, WaitingForSend =>
        currentNumberIndex s < length (numbers c)
        ∧ ∃ t, pending s = [t] ∧ actionTimerRef s = Some (tid t)
               ∧ timerRef s ≠ Some (tid t)
               ∧ callback t = SendCb (currentNumberIndex s)
    | paused, WaitingForNext | paused, WaitingForSend | stopped, Idle =>
        currentNumberIndex s < length (numbers c) ∧ pending s = []
    | finished, Finished =>
        currentNumberIndex s = length (numbers c) ∧ pending s = []
    | _, _ => False
    end.

(** A handle that was issued and is armed no more. *)
Definition spent (s : State) (id : positive) : Prop :=
  (id < nextTimerId s)%positive ∧ ∀ t, t ∈ pending s → tid t ≠ id.

(** From [s] to [s'] timers were only removed, or armed under new handles. *)
Definition grows (s s' : State) : Prop :=
  (nextTimerId s <= nextTimerId s')%positive
  ∧ ∀ t, t ∈ pending s' → t ∈ pending s ∨ (nextTimerId s <= tid t)%positive.

(** The delay the current phase waits for, in full. *)
Definition fullDelay (c : CampaignConfig) (s : State) : Z :=
  match appState s with
  | WaitingForNext =>
      if currentNumberIndex s =? 0 then 0%Z else (delayBetween c * 1000)%Z
  | _ => (sendActionDelay c * 1000)%Z
  end.

(** The same entry, stamped [d] later. *)
Definition later (d : Z) (e : LogEntry) : LogEntry :=
  {| timestamp := timestamp e + d; message := message e; status := status e;
     data := data e |}.

(** Two states that differ only in when their timer fires: [s2]'s fires [d]
    later than [s1]'s (the logs and the handles are left out). *)
Definition delayedBy (d : Z) (s1 s2 : State) : Prop :=
  appState s2 = appState s1
  ∧ campaignStatus s2 = campaignStatus s1
  ∧ currentNumberIndex s2 = currentNumberIndex s1
  ∧ ((pending s1 = [] ∧ pending s2 = [])
     ∨ ∃ t1 t2, pending s1 = [t1] ∧ pending s2 = [t2]
         ∧ callback t2 = callback t1
         ∧ Z.max (clock s2) (due t2) = (Z.max (clock s1) (due t1) + d)%Z).

(** How many timers are still to fire before a running campaign ends. *)
Definition stepsLeft (c : CampaignConfig) (s : State) : nat :=
  2 * (length (numbers c) - currentNumberIndex s)
  - match appState s with WaitingForSend => 1 | _ => 0 end.

(** The entries the controller writes. *)
Definition infoEntry (time : Z) (text : jsstring) : LogEntry :=
  {| timestamp := time; message := text; status := INFO; data := None |}.

Definition successEntry (time : Z) (recipient body : jsstring)
    (attachment : option File) : LogEntry :=
  {| timestamp := time;
     message := lit "Message presumed SENT to " ++ recipient ++ lit ".";
     status := SUCCESS;
     data := Some {| LogData.number := Some recipient;
                     LogData.status := Some LogData.SENT;
                     LogData.message := Some body;
                     LogData.file := name <$> attachment;
                     LogData.deliveryStatus := Some Pending |} |}.

(** Entries tagged INFO or SUCCESS. *)
Definition infoOrSuccess (e : LogEntry) : bool :=
  match status e with
  | INFO | SUCCESS => true
  | _ => false
  end.

(** ** Sample configurations *)

(** The configuration [App] starts with, with recipients filled in. *)
Definition sampleConfig (recipients : list jsstring) : CampaignConfig :=
  {| message1 := lit "Hello! This is message template 1.";
     file1 := None;
     message2 := lit "Hi there, this is the second message template.";
     file2 := None;
     numbers := recipients;
     delayBetween := 15;
     sendActionDelay := 5;
     monitorNumber := [];
     monitorMessages := [lit "Monitoring is active"] |}.

Definition oneRecipient : CampaignConfig := sampleConfig [lit "+201000000001"].

Definition twoRecipients : CampaignConfig :=
  sampleConfig [lit "+201000000001"; lit "201000000002"].

Definition threeRecipients : CampaignConfig :=
  sampleConfig [lit "+201000000001"; lit "201000000002"; lit "+201000000003"].

(** A campaign with two recipients in which the operator pauses during the
    first send delay, resumes a minute later, lets the first message go and
    skips the second recipient. *)
Definition sampleRun : list Op :=
  [Fire 1; Elapse 2000; Pause; Elapse 60000; Resume; Elapse 5000; Fire 3;
   Elapse 15000; Fire 4; Skip].

(** ** The rest of [App] *)

(** [currentActionInfo], what [CampaignView] is given to show about the
    current recipient. *)
Module ActionInfo.

Record t := {
  number : option jsstring;
  message : jsstring;
  file : option File;
  actionDelay : Z
}.

End ActionInfo.

Definition currentActionInfo (c : CampaignConfig) (s : State) : ActionInfo.t :=
  {| ActionInfo.number := numbers c !! currentNumberIndex s;
     ActionInfo.message :=
       if currentNumberIndex s mod 2 =? 0 then message1 c else message2 c;
     ActionInfo.file :=
       if currentNumberIndex s mod 2 =? 0 then file1 c else file2 c;
     ActionInfo.actionDelay := sendActionDelay c |}.

(** ** What a campaign is expected to log *)

(** The template and the attachment for the recipient at index [i]. *)
Definition templateFor (c : CampaignConfig) (i : nat) : jsstring :=
  if i mod 2 =? 0 then message1 c else message2 c.

Definition attachmentFor (c : CampaignConfig) (i : nat) : option File :=
  if i mod 2 =? 0 then file1 c else file2 c.

(** The entry of a send to the recipient at index [i], which may be out of
    range. *)
Definition sentEntry (c : CampaignConfig) (i : nat) (time : Z) : LogEntry :=
  {| timestamp := time;
     message := lit "Message presumed SENT to " ++ interpolate (numbers c !! i)
                ++ lit ".";
     status := SUCCESS;
     data := Some {| LogData.number := numbers c !! i;
                     LogData.status := Some LogData.SENT;
                     LogData.message := Some (templateFor c i);
                     LogData.file := name <$> attachmentFor c i;
                     LogData.deliveryStatus := Some Pending |} |}.

(** The entry of a skip of the recipient at index [i]. *)
Definition skippedEntry (c : CampaignConfig) (i : nat) (time : Z) : LogEntry :=
  {| timestamp := time;
     message := lit "Skipped number: " ++ interpolate (numbers c !! i);
     status := SKIPPED;
     data := Some {| LogData.number := numbers c !! i;
                     LogData.status := Some LogData.SKIPPED;
                     LogData.message := None;
                     LogData.file := None;
                     LogData.deliveryStatus := None |} |}.

(** The monitor entry that follows a send, when a monitor recipient and a
    monitor message are configured. *)
Definition monitorEntries (c : CampaignConfig) (time : Z) : list LogEntry :=
  if truthy (monitorNumber c) && (0 <? length (monitorMessages c))
  then [infoEntry time (lit "Sending monitor message to " ++ monitorNumber c)]
  else [].

(** The "Campaign finished." entry, when [i] is past the last recipient. *)
Definition finishEntries (c : CampaignConfig) (i : nat) (time : Z) : list LogEntry :=
  if length (numbers c) <=? i
  then [infoEntry time (lit "Campaign finished.")]
  else [].

(** What an entry says, its timestamp left aside: message, tag and payload. *)
Definition content (e : LogEntry) : jsstring * Tag * option LogData.t :=
  (message e, status e, data e).

Definition infoContent (text : jsstring) : jsstring * Tag * option LogData.t :=
  (text, INFO, None).

Definition successContent (recipient body : jsstring) (attachment : option File)
    : jsstring * Tag * option LogData.t :=
  (lit "Message presumed SENT to " ++ recipient ++ lit ".",
   SUCCESS,
   Some {| LogData.number := Some recipient;
           LogData.status := Some LogData.SENT;
           LogData.message := Some body;
           LogData.file := name <$> attachment;
           LogData.deliveryStatus := Some Pending |}).

Definition monitorContents (c : CampaignConfig)
    : list (jsstring * Tag * option LogData.t) :=
  if truthy (monitorNumber c) && (0 <? length (monitorMessages c))
  then [infoContent (lit "Sending monitor message to " ++ monitorNumber c)]
  else [].

(** What an undisturbed campaign logs for the recipients [rest], the first
    of them at index [i] (newest first, timestamps left aside). *)
Fixpoint cycleContents (c : CampaignConfig) (i : nat) (rest : list jsstring)
    : list (jsstring * Tag * option LogData.t) :=
  match rest with
  | [] => []
  | r :: rest' =>
      let mine :=
        monitorContents c
        ++ [successContent r (templateFor c i) (attachmentFor c i)] in
      match rest' with
      | [] => infoContent (lit "Campaign finished.") :: mine
      | _ :: _ => cycleContents c (S i) rest' ++ mine
      end
  end.




(** Entries tagged SUCCESS. *)
Definition isSuccess (e : LogEntry) : bool := bool_decide (status e = SUCCESS).

(** * Properties *)

(** ** The log recorder *)

Lemma jsGet_of_nat {A : Type} (l : list A) (j : nat) :
  jsGet l (Z.of_nat j) = l !! j.
Proof.
  unfold jsGet. destruct (Z.ltb_spec (Z.of_nat j) 0) as [H|H]; [lia|].
  by rewrite Nat2Z.id.
Qed.

Lemma jsGet_Some {A : Type} (l : list A) (k : Z) (x : A) :
  jsGet l k = Some x → (0 <= k)%Z ∧ l !! Z.to_nat k = Some x.
Proof.
  unfold jsGet. destruct (Z.ltb_spec k 0); [done|]. by intros ->.
Qed.

Lemma updateDeliveryStatus_payload (l : list LogEntry) (j : nat)
    (st : DeliveryStatus) (e : LogEntry) (d : LogData.t) :
  l !! j = Some e → data e = Some d →
  updateDeliveryStatus (Z.of_nat j) st l
  = <[j := withData (LogData.setDeliveryStatus st d) e]> l.
Proof.
  intros He Hd. unfold updateDeliveryStatus.
  rewrite jsGet_of_nat, He, Hd. by rewrite Nat2Z.id.
Qed.

(** C9: [updateDeliveryStatus k st] keeps the length of the log and every
    entry at an index other than [k]; when the entry at [k] has a payload,
    its timestamp, message and status tag stay, and so do the payload's
    number, outcome, message and file, while the delivery status becomes
    [st]; when the entry at [k] has no payload, or there is no entry at [k],
    the log is returned as it was. [handleUpdateDeliveryStatus] applies this
    to the log and touches nothing else of the state. *)
Theorem updateDeliveryStatus_frame (l : list LogEntry) (k : Z) (st : DeliveryStatus) :
  length (updateDeliveryStatus k st l) = length l
  ∧ (∀ j : nat, Z.of_nat j ≠ k → updateDeliveryStatus k st l !! j = l !! j)
  ∧ (∀ e d, jsGet l k = Some e → data e = Some d →
       ∃ e' d', jsGet (updateDeliveryStatus k st l) k = Some e'
         ∧ timestamp e' = timestamp e ∧ message e' = message e
         ∧ status e' = status e ∧ data e' = Some d'
         ∧ LogData.number d' = LogData.number d
         ∧ LogData.status d' = LogData.status d
         ∧ LogData.message d' = LogData.message d
         ∧ LogData.file d' = LogData.file d
         ∧ LogData.deliveryStatus d' = Some st)
  ∧ (∀ e, jsGet l k = Some e → data e = None → updateDeliveryStatus k st l = l)
  ∧ (jsGet l k = None → updateDeliveryStatus k st l = l)
  ∧ (∀ s, log (handleUpdateDeliveryStatus k st s) = updateDeliveryStatus k st (log s)
          ∧ handleUpdateDeliveryStatus k st s
            = setLog (fun _ => updateDeliveryStatus k st (log s)) s).
Proof.
  unfold handleUpdateDeliveryStatus, updateDeliveryStatus. split_and!.
  - destruct (jsGet l k) as [e|]; [|done].
    destruct (data e); [|done]. by rewrite length_insert.
  - intros j Hj. destruct (jsGet l k) as [e|] eqn:He; [|done].
    destruct (data e); [|done].
    apply jsGet_Some in He as [Hk _].
    apply list_lookup_insert_ne. lia.
  - intros e d He Hd. rewrite He, Hd.
    apply jsGet_Some in He as [Hk He].
    exists (withData (LogData.setDeliveryStatus st d) e), (LogData.setDeliveryStatus st d).
    split_and!; [|reflexivity..].
    unfold jsGet. destruct (Z.ltb_spec k 0); [lia|].
    apply list_lookup_insert_eq. by eapply lookup_lt_Some.
  - by intros e -> ->.
  - by intros ->.
  - done.
Qed.

(** ** The validator *)

Lemma isDigit_spec (c : N) : isDigit c = true ↔ (48 <= c <= 57)%N.
Proof. unfold isDigit. rewrite andb_true_iff, !N.leb_le. done. Qed.

Lemma digitsToEnd_spec (s : jsstring) :
  digitsToEnd s = true ↔ s ≠ [] ∧ Forall (fun c => (48 <= c <= 57)%N) s.
Proof.
  unfold digitsToEnd. rewrite andb_true_iff, forallb_forall, Forall_forall.
  split.
  - intros [Hne Hall]. split; [by destruct s|].
    intros c Hc. apply isDigit_spec, Hall. by apply list_elem_of_In.
  - intros [Hne Hall]. split; [by destruct s|].
    intros c Hc. apply isDigit_spec, Hall. by apply list_elem_of_In.
Qed.

(** The test of the regular expression is the phone-number pattern. *)
Lemma phoneTest_spec (s : jsstring) : phoneTest s = true ↔ phoneLike s.
Proof.
  unfold phoneLike. destruct s as [|c r]; simpl.
  - split; [done|]. intros (ds & Hne & _ & [<- | [=]]). done.
  - destruct (N.eqb_spec c 43) as [->|Hc]; rewrite digitsToEnd_spec.
    + split.
      * intros [Hne Hall]. exists r. auto.
      * intros (ds & Hne & Hall & [<- | [= <-]]); [|done].
        apply Forall_cons in Hall as [? _]. lia.
    + split.
      * intros [Hne Hall]. exists (c :: r). auto.
      * intros (ds & Hne & Hall & [<- | [= ? _]]); [done | congruence].
Qed.

Lemma phoneTest_false (s : jsstring) : phoneTest s = false ↔ ¬ phoneLike s.
Proof. rewrite <- phoneTest_spec. by destruct (phoneTest s). Qed.

Lemma trimStart_nil (s : jsstring) : trimStart s = [] ↔ blank s.
Proof.
  unfold blank. induction s as [|c r IH]; simpl; [done|].
  destruct (isWhiteSpace c) eqn:Hc.
  - rewrite IH. split; [by constructor|]. by intros [_ ?]%Forall_cons.
  - split; [done|]. intros [? _]%Forall_cons. congruence.
Qed.

(** What [trimStart] leaves starts with a code unit that is no white space. *)
Lemma trimStart_blank (s : jsstring) : blank (trimStart s) → trimStart s = [].
Proof.
  unfold blank. induction s as [|c r IH]; simpl; [done|].
  destruct (isWhiteSpace c) eqn:Hc; [done|].
  intros [? _]%Forall_cons. congruence.
Qed.

Lemma trim_nil (s : jsstring) : trim s = [] ↔ blank s.
Proof.
  unfold trim. split.
  - intros H. apply (f_equal (@rev N)) in H. rewrite rev_involutive in H.
    simpl in H. apply trimStart_nil in H. unfold blank in H.
    apply Forall_rev in H. rewrite rev_involutive in H.
    by apply trimStart_nil, trimStart_blank.
  - intros H. apply trimStart_nil in H. rewrite H. done.
Qed.

Lemma blank_spec (s : jsstring) : negb (truthy (trim s)) = true ↔ blank s.
Proof. rewrite <- trim_nil. by destruct (trim s). Qed.

Lemma bothBlank_spec (c : CampaignConfig) :
  bothBlank c = true ↔ blank (message1 c) ∧ blank (message2 c).
Proof. unfold bothBlank. by rewrite andb_true_iff, !blank_spec. Qed.

Lemma badNumbers_spec (c : CampaignConfig) :
  badNumbers c = true ↔ numbers c = [] ∨ ∃ n, n ∈ numbers c ∧ ¬ phoneLike n.
Proof.
  unfold badNumbers. rewrite orb_true_iff, Nat.eqb_eq, existsb_exists.
  split.
  - intros [Hlen | (n & Hin & Hn)].
    + left. by destruct (numbers c).
    + right. exists n. split; [by apply list_elem_of_In|].
      by apply phoneTest_false, negb_true_iff.
  - intros [-> | (n & Hin & Hn)]; [by left|].
    right. exists n. split; [by apply list_elem_of_In|].
    by apply negb_true_iff, phoneTest_false.
Qed.

Lemma badMonitor_spec (c : CampaignConfig) :
  badMonitor c = true ↔ monitorNumber c ≠ [] ∧ ¬ phoneLike (monitorNumber c).
Proof.
  unfold badMonitor. rewrite andb_true_iff, negb_true_iff, phoneTest_false.
  assert (truthy (monitorNumber c) = true ↔ monitorNumber c ≠ []) as ->
    by (by destruct (monitorNumber c)).
  done.
Qed.

(** Which fields [newErrors] reports, check by check. *)
Lemma newErrors_fields (c : CampaignConfig) :
  newErrors c !! "messages"
  = (if bothBlank c
     then Some "At least one message template is required." else None)
  ∧ newErrors c !! "numbers"
    = (if length (numbers c) =? 0
       then Some "At least one phone number is required."
       else if existsb (fun n => negb (phoneTest n)) (numbers c)
       then Some "All phone numbers must be in a valid format (e.g., +1234567890 or 1234567890)."
       else None)
  ∧ newErrors c !! "delayBetween"
    = (if (delayBetween c <=? 0)%Z
       then Some "Delay must be a positive number." else None)
  ∧ newErrors c !! "sendActionDelay"
    = (if (sendActionDelay c <=? 0)%Z
       then Some "Action delay must be a positive number." else None)
  ∧ newErrors c !! "monitorNumber"
    = (if badMonitor c
       then Some "Monitor number must be a valid phone number." else None).
Proof.
  unfold newErrors, bothBlank, badNumbers, badMonitor.
  destruct (negb (truthy (trim (message1 c))) && negb (truthy (trim (message2 c)))),
    (length (numbers c) =? 0),
    (existsb (fun n => negb (phoneTest n)) (numbers c)),
    (delayBetween c <=? 0)%Z, (sendActionDelay c <=? 0)%Z,
    (truthy (monitorNumber c) && negb (phoneTest (monitorNumber c)));
    (repeat split); vm_compute; reflexivity.
Qed.

Lemma newErrors_none (c : CampaignConfig) :
  bothBlank c || badNumbers c || (delayBetween c <=? 0)%Z
  || (sendActionDelay c <=? 0)%Z || badMonitor c = false →
  newErrors c = ∅.
Proof.
  unfold newErrors, bothBlank, badNumbers, badMonitor. intros H.
  repeat (apply orb_false_elim in H as [H ?]).
  destruct (length (numbers c) =? 0); [done|].
  destruct (existsb _ (numbers c)); [done|].
  destruct (negb (truthy (trim (message1 c))) && _); [done|].
  destruct (delayBetween c <=? 0)%Z; [done|].
  destruct (sendActionDelay c <=? 0)%Z; [done|].
  destruct (truthy (monitorNumber c) && _); [done|].
  reflexivity.
Qed.

Lemma newErrors_empty (c : CampaignConfig) :
  newErrors c = ∅ ↔
  bothBlank c || badNumbers c || (delayBetween c <=? 0)%Z
  || (sendActionDelay c <=? 0)%Z || badMonitor c = false.
Proof.
  destruct (newErrors_fields c) as (H1 & H2 & H3 & H4 & H5).
  split; [|apply newErrors_none]. intros He. rewrite He in H1, H2, H3, H4, H5.
  rewrite lookup_empty in H1, H2, H3, H4, H5.
  unfold badNumbers.
  destruct (bothBlank c); [done|].
  destruct (length (numbers c) =? 0); [done|].
  destruct (existsb _ (numbers c)); [done|].
  destruct (delayBetween c <=? 0)%Z; [done|].
  destruct (sendActionDelay c <=? 0)%Z; [done|].
  by destruct (badMonitor c).
Qed.

Lemma mustReject_spec (c : CampaignConfig) :
  mustReject c ↔
  bothBlank c || badNumbers c || (delayBetween c <=? 0)%Z
  || (sendActionDelay c <=? 0)%Z || badMonitor c = true.
Proof.
  unfold mustReject.
  rewrite !orb_true_iff, bothBlank_spec, badNumbers_spec, badMonitor_spec,
    !Z.leb_le.
  tauto.
Qed.

(** C8: [validateConfig] returns false exactly when the configuration must
    be rejected: both templates blank after trimming, or no recipient, or a
    recipient not matching the phone-number pattern, or [delayBetween <= 0],
    or [sendActionDelay <= 0], or a monitor recipient that is present and
    does not match the pattern. The errors it sets are keyed by field, one
    key per failed check, and there is none exactly when it returns true.
    [handleStartCampaign] opens the confirmation (the only way to
    [executeStartCampaign]) exactly when the configuration passes, and
    never changes the status itself. *)
Theorem validateConfig_rejects_exactly (c : CampaignConfig) (s : State) :
  (fst (validateConfig c s) = false ↔ mustReject c)
  ∧ (fst (validateConfig c s) = true ↔ ¬ mustReject c)
  ∧ errors (snd (validateConfig c s)) = newErrors c
  ∧ (fst (validateConfig c s) = true ↔ newErrors c = ∅)
  ∧ (is_Some (newErrors c !! "messages") ↔ blank (message1 c) ∧ blank (message2 c))
  ∧ (is_Some (newErrors c !! "numbers") ↔
       numbers c = [] ∨ ∃ n, n ∈ numbers c ∧ ¬ phoneLike n)
  ∧ (is_Some (newErrors c !! "delayBetween") ↔ (delayBetween c <= 0)%Z)
  ∧ (is_Some (newErrors c !! "sendActionDelay") ↔ (sendActionDelay c <= 0)%Z)
  ∧ (is_Some (newErrors c !! "monitorNumber") ↔
       monitorNumber c ≠ [] ∧ ¬ phoneLike (monitorNumber c))
  ∧ campaignStatus (handleStartCampaign c s) = campaignStatus s
  ∧ (mustReject c →
       isConfirmationOpen (handleStartCampaign c s) = isConfirmationOpen s)
  ∧ (¬ mustReject c → isConfirmationOpen (handleStartCampaign c s) = true).
Proof.
  assert (Hok : fst (validateConfig c s) = true ↔ newErrors c = ∅).
  { unfold validateConfig. simpl. rewrite Nat.eqb_eq. split.
    - intros Hlen. apply map_to_list_empty_iff.
      destruct (map_to_list (newErrors c)); [done | discriminate Hlen].
    - intros ->. by rewrite map_to_list_empty. }
  assert (Hrej : fst (validateConfig c s) = false ↔ mustReject c).
  { rewrite mustReject_spec. rewrite <- not_true_iff_false, Hok, newErrors_empty.
    by destruct (_ || _). }
  assert (Hacc : fst (validateConfig c s) = true ↔ ¬ mustReject c).
  { rewrite <- Hrej. by destruct (fst (validateConfig c s)). }
  destruct (newErrors_fields c) as (H1 & H2 & H3 & H4 & H5).
  split_and!; try done.
  - rewrite H1, <- bothBlank_spec. destruct (bothBlank c); split; done.
  - rewrite H2, <- badNumbers_spec. unfold badNumbers.
    destruct (length (numbers c) =? 0); [done|].
    destruct (existsb _ (numbers c)); split; done.
  - rewrite H3, <- Z.leb_le. destruct (delayBetween c <=? 0)%Z; split; done.
  - rewrite H4, <- Z.leb_le. destruct (sendActionDelay c <=? 0)%Z; split; done.
  - rewrite H5, <- badMonitor_spec. destruct (badMonitor c); split; done.
  - unfold handleStartCampaign.
    destruct (validateConfig c s) as [[|] s1] eqn:Hv;
      injection Hv as _ <-; reflexivity.
  - intros Hm. apply Hrej in Hm. unfold handleStartCampaign.
    destruct (validateConfig c s) as [ok s1] eqn:Hv. simpl in Hm. subst ok.
    injection Hv as _ <-. reflexivity.
  - intros Hm. apply Hacc in Hm. unfold handleStartCampaign.
    destruct (validateConfig c s) as [ok s1] eqn:Hv. simpl in Hm. by subst ok.
Qed.

(** ** The handlers, one call at a time *)

(** Running the handlers on a state given field by field: call by value, so
    that each setter is applied to a record and not to a pending call. *)
Ltac exec_app :=
  cbv beta iota zeta delta
    [handleSkipNumber handlePauseCampaign handleResumeCampaign
     handleStopCampaign executeStartCampaign runCallback sendCallback
     startSendAction processNextNumber clearTimers clearTimeout setTimeout
     addLog setAppState setCampaignStatus setLog setCurrentNumberIndex
     setConfirmationOpen setErrors setTimerRef setActionTimerRef setClock
     setQueue appState campaignStatus log currentNumberIndex
     isConfirmationOpen errors timerRef actionTimerRef clock nextTimerId
     pending fst snd] in *.

Lemma dequeue_tid (id : positive) (q : list Timer) (t : Timer) :
  t ∈ dequeue id q → tid t ≠ id ∧ t ∈ q.
Proof.
  unfold dequeue. rewrite list_elem_of_In, filter_In, <- list_elem_of_In.
  intros [Hin Hne]. split; [|done].
  simpl in Hne. apply negb_true_iff in Hne. by apply Pos.eqb_neq.
Qed.

Lemma dequeue_keeps (id : positive) (q : list Timer) (t : Timer) :
  t ∈ q → tid t ≠ id → t ∈ dequeue id q.
Proof.
  unfold dequeue. rewrite !list_elem_of_In, filter_In. intros Hin Hne.
  split; [done|]. by apply negb_true_iff, Pos.eqb_neq.
Qed.

Lemma nextDue_In (q : list Timer) (t : Timer) : nextDue q = Some t → t ∈ q.
Proof.
  revert t. induction q as [|a q IH]; intros t; simpl; [done|].
  destruct (nextDue q) as [u|].
  - intros [= <-]. destruct (earlier a u); [left | right; by apply IH].
  - intros [= <-]. left.
Qed.

Lemma fire_pending (config : CampaignConfig) (id : positive) (s s' : State) :
  fire config id s = Some s' → ∃ t, t ∈ pending s ∧ tid t = id.
Proof.
  unfold fire. destruct (nextDue (pending s)) as [t|] eqn:Hn; [|done].
  destruct (Pos.eqb_spec (tid t) id) as [<-|]; [|done].
  intros _. exists t. split; [by apply nextDue_In | done].
Qed.

Lemma pending_clearTimers (s : State) (t : Timer) :
  t ∈ pending (clearTimers s) →
  t ∈ pending s ∧ timerRef s ≠ Some (tid t) ∧ actionTimerRef s ≠ Some (tid t).
Proof.
  destruct s as [ph st lg ix co er tr ar ck ni pe], tr, ar; exec_app;
    intros Hin; repeat (apply dequeue_tid in Hin as [? Hin]);
    split_and!; congruence.
Qed.

Lemma clearTimers_quiescent (s : State) :
  (∀ t, t ∈ pending s → timerRef s = Some (tid t) ∨ actionTimerRef s = Some (tid t)) →
  pending (clearTimers s) = [].
Proof.
  intros Hall. destruct (pending (clearTimers s)) as [|t q] eqn:Hq; [done|].
  assert (Hin : t ∈ pending (clearTimers s)) by (rewrite Hq; left).
  apply pending_clearTimers in Hin as (Hin & ? & ?).
  by destruct (Hall t Hin).
Qed.

Lemma clearTimers_frame (s : State) :
  appState (clearTimers s) = appState s
  ∧ campaignStatus (clearTimers s) = campaignStatus s
  ∧ log (clearTimers s) = log s
  ∧ currentNumberIndex (clearTimers s) = currentNumberIndex s
  ∧ clock (clearTimers s) = clock s
  ∧ nextTimerId (clearTimers s) = nextTimerId s
  ∧ timerRef (clearTimers s) = None
  ∧ actionTimerRef (clearTimers s) = None.
Proof.
  by destruct s as [ph st lg ix co er tr ar ck ni pe], tr, ar.
Qed.

Section Handlers.

Variable config : CampaignConfig.

(** C10: the entry [handleSkipNumber] makes is tagged SKIPPED and carries a
    payload with the recipient's number, the outcome SKIPPED and no delivery
    status; it sits at the front of the log, or second when the skip ended
    the campaign. [handleUpdateDeliveryStatus] called at that index right
    after the skip is not a no-op: the state and its log change, and the
    skipped entry, still tagged SKIPPED and for the same number, now has the
    delivery status. The same holds in any later state whose log holds the
    entry, at the index where it then sits. *)
Theorem skipped_entry_takes_delivery_status (s : State) (newStatus : DeliveryStatus) :
  let k := if length (numbers config) <=? currentNumberIndex s + 1 then 1 else 0 in
  let skipped := handleSkipNumber config s in
  let updated := handleUpdateDeliveryStatus (Z.of_nat k) newStatus skipped in
  ∃ e : LogEntry,
    log skipped !! k = Some e
    ∧ status e = SKIPPED
    ∧ data e = Some (skippedData config s)
    ∧ LogData.deliveryStatus (skippedData config s) = None
    ∧ updated ≠ skipped
    ∧ log updated ≠ log skipped
    ∧ log updated
      = <[k := withData (LogData.setDeliveryStatus newStatus (skippedData config s)) e]>
          (log skipped)
    ∧ (∃ e', log updated !! k = Some e'
         ∧ status e' = SKIPPED
         ∧ (LogData.deliveryStatus <$> data e') = Some (Some newStatus)
         ∧ (LogData.number <$> data e') = Some (numbers config !! currentNumberIndex s))
    ∧ (∀ (later : State) (j : nat), log later !! j = Some e →
         handleUpdateDeliveryStatus (Z.of_nat j) newStatus later ≠ later
         ∧ log (handleUpdateDeliveryStatus (Z.of_nat j) newStatus later) ≠ log later
         ∧ ∃ e', log (handleUpdateDeliveryStatus (Z.of_nat j) newStatus later) !! j
                 = Some e'
             ∧ status e' = SKIPPED
             ∧ (LogData.deliveryStatus <$> data e') = Some (Some newStatus)
             ∧ (LogData.number <$> data e')
               = Some (numbers config !! currentNumberIndex s))
    ∧ ∀ (l : list LogEntry) (j : nat), l !! j = Some e →
        updateDeliveryStatus (Z.of_nat j) newStatus l ≠ l
        ∧ ∃ e', updateDeliveryStatus (Z.of_nat j) newStatus l !! j = Some e'
            ∧ status e' = SKIPPED
            ∧ (LogData.deliveryStatus <$> data e') = Some (Some newStatus)
            ∧ (LogData.number <$> data e') = Some (numbers config !! currentNumberIndex s).
Proof.
  set (e := {| timestamp := clock s;
               message := lit "Skipped number: "
                          ++ interpolate (numbers config !! currentNumberIndex s);
               status := SKIPPED;
               data := Some (skippedData config s) |}).
  assert (Hlist : ∀ (l : list LogEntry) (j : nat), l !! j = Some e →
            updateDeliveryStatus (Z.of_nat j) newStatus l
            = <[j := withData (LogData.setDeliveryStatus newStatus
                                 (skippedData config s)) e]> l
            ∧ updateDeliveryStatus (Z.of_nat j) newStatus l ≠ l
            ∧ ∃ e', updateDeliveryStatus (Z.of_nat j) newStatus l !! j = Some e'
                ∧ status e' = SKIPPED
                ∧ (LogData.deliveryStatus <$> data e') = Some (Some newStatus)
                ∧ (LogData.number <$> data e')
                  = Some (numbers config !! currentNumberIndex s)).
  { intros l j Hj.
    rewrite (updateDeliveryStatus_payload l j newStatus e (skippedData config s) Hj eq_refl).
    assert (Hlt : j < length l) by (by eapply lookup_lt_Some).
    split; [done|]. split.
    - intros Heq. apply (f_equal (fun x => x !! j)) in Heq.
      rewrite list_lookup_insert_eq, Hj in Heq by done. discriminate Heq.
    - eexists. split; [by apply list_lookup_insert_eq|]. by split_and!. }
  assert (Hstate : ∀ (later : State) (j : nat), log later !! j = Some e →
            log (handleUpdateDeliveryStatus (Z.of_nat j) newStatus later)
            = <[j := withData (LogData.setDeliveryStatus newStatus
                                 (skippedData config s)) e]> (log later)
            ∧ handleUpdateDeliveryStatus (Z.of_nat j) newStatus later ≠ later
            ∧ log (handleUpdateDeliveryStatus (Z.of_nat j) newStatus later) ≠ log later
            ∧ ∃ e', log (handleUpdateDeliveryStatus (Z.of_nat j) newStatus later) !! j
                    = Some e'
                ∧ status e' = SKIPPED
                ∧ (LogData.deliveryStatus <$> data e') = Some (Some newStatus)
                ∧ (LogData.number <$> data e')
                  = Some (numbers config !! currentNumberIndex s)).
  { intros later j Hj. destruct (Hlist (log later) j Hj) as (Heq & Hne & Hex).
    change (log (handleUpdateDeliveryStatus (Z.of_nat j) newStatus later))
      with (updateDeliveryStatus (Z.of_nat j) newStatus (log later)).
    split_and!; try done.
    intros Hsame. apply Hne.
    change (updateDeliveryStatus (Z.of_nat j) newStatus (log later))
      with (log (handleUpdateDeliveryStatus (Z.of_nat j) newStatus later)).
    by rewrite Hsame. }
  assert (Hk : log (handleSkipNumber config s)
               !! (if length (numbers config) <=? currentNumberIndex s + 1
                   then 1 else 0) = Some e).
  { unfold e.
    destruct s as [ph st lg ix co er tr ar ck ni pe], tr, ar; exec_app;
      destruct (length (numbers config) <=? ix + 1); reflexivity. }
  cbv zeta. exists e.
  destruct (Hstate _ _ Hk) as (H1 & H2 & H3 & H4).
  split_and!; try done.
  - intros later j Hj. by destruct (Hstate later j Hj) as (_ & ? & ? & ?).
  - intros l j Hj. by destruct (Hlist l j Hj) as (_ & ? & ?).
Qed.

(** C2, as the code has it: [handleSkipNumber] does not look at the phase.
    In every state it advances the position by one, puts one SKIPPED entry
    for the current recipient on the log (under the "Campaign finished."
    entry when the skip ends the campaign), empties the send-delay slot,
    cancels the timer that slot held, and goes on with
    [processNextNumber]. *)
Theorem handleSkipNumber_in_every_phase (s : State) :
  let e := {| timestamp := clock s;
              message := lit "Skipped number: "
                         ++ interpolate (numbers config !! currentNumberIndex s);
              status := SKIPPED;
              data := Some (skippedData config s) |} in
  let s' := handleSkipNumber config s in
  currentNumberIndex s' = currentNumberIndex s + 1
  ∧ actionTimerRef s' = None
  ∧ (∀ id t, actionTimerRef s = Some id → (id < nextTimerId s)%positive →
       t ∈ pending s' → tid t ≠ id)
  ∧ (if length (numbers config) <=? currentNumberIndex s + 1
     then appState s' = Finished
          ∧ log s' = {| timestamp := clock s; message := lit "Campaign finished.";
                        status := INFO; data := None |} :: e :: log s
     else appState s' = WaitingForNext
          ∧ log s' = e :: log s
          ∧ timerRef s' = Some (nextTimerId s)
          ∧ ∃ q, pending s' = q ++ [{| tid := nextTimerId s;
                                       due := clock s + Z.max 0 (delayBetween config * 1000);
                                       callback := NextCb (currentNumberIndex s + 1) |}]).
Proof.
  assert (Hnz : ∀ n, (n + 1 =? 0) = false) by (intros n; apply Nat.eqb_neq; lia).
  destruct s as [ph st lg ix co er tr ar ck ni pe], tr, ar; exec_app;
    rewrite Hnz; unfold skippedData;
    destruct (length (numbers config) <=? ix + 1); exec_app;
    (split_and!; try reflexivity; try (by eexists);
     intros id t [= <-] Hlt Hin;
     rewrite ?elem_of_app, ?list_elem_of_singleton in Hin;
     repeat match goal with
       | H : _ ∨ _ |- _ => destruct H as [H | ->]; [|simpl; lia]
       | H : _ ∈ dequeue _ _ |- _ => apply dequeue_tid in H as [? H]
       end; done).
Qed.

(** C4, as the code has it: [handlePauseCampaign] does not look at the
    status. In every state it empties both timer slots and cancels the
    timers they held, keeps the phase and the position, sets the status to
    paused and puts the INFO entry "Campaign paused." on the log. *)
Theorem handlePauseCampaign_in_every_status (s : State) :
  let s' := handlePauseCampaign s in
  campaignStatus s' = paused
  ∧ appState s' = appState s
  ∧ currentNumberIndex s' = currentNumberIndex s
  ∧ log s' = {| timestamp := clock s; message := lit "Campaign paused.";
                status := INFO; data := None |} :: log s
  ∧ timerRef s' = None ∧ actionTimerRef s' = None
  ∧ (∀ t, t ∈ pending s' →
       t ∈ pending s ∧ timerRef s ≠ Some (tid t) ∧ actionTimerRef s ≠ Some (tid t))
  ∧ (∀ id, timerRef s = Some id ∨ actionTimerRef s = Some id →
       fire config id s' = None).
Proof.
  assert (Hq := pending_clearTimers s).
  destruct s as [ph st lg ix co er tr ar ck ni pe], tr, ar; exec_app;
    (split_and!; try reflexivity; try exact Hq;
     intros id Hid; destruct (fire config id _) as [s'|] eqn:Hf; [|done];
     apply fire_pending in Hf as (t & Hin & <-); exec_app;
     apply Hq in Hin as (_ & ? & ?); destruct Hid; congruence).
Qed.

(** C5, as the code has it: [handleResumeCampaign] always sets the status to
    running and puts the INFO entry "Campaign resumed." on the log. When the
    phase is Idle or Finished that is all it does: no timer is armed and
    phase and position stay. When the phase is WaitingForSend it arms the
    send delay anew at the full [sendActionDelay]; when it is WaitingForNext
    (with recipients left) it arms the next delay anew, at the full
    [delayBetween], or at 0 for the first recipient. *)
Theorem handleResumeCampaign_effect (s : State) :
  let entry := {| timestamp := clock s; message := lit "Campaign resumed.";
                  status := INFO; data := None |} in
  let s' := handleResumeCampaign config s in
  let i := currentNumberIndex s in
  let s1 := addLog (lit "Campaign resumed.") INFO None (setCampaignStatus running s) in
  campaignStatus s1 = running ∧ log s1 = entry :: log s ∧ pending s1 = pending s
  ∧ (appState s = WaitingForNext → s' = processNextNumber config i s1)
  ∧ (appState s = WaitingForSend → s' = startSendAction config i s1)
  ∧ (appState s = Idle ∨ appState s = Finished →
     s' = s1
     ∧ campaignStatus s' = running ∧ log s' = entry :: log s
     ∧ pending s' = pending s ∧ appState s' = appState s
     ∧ currentNumberIndex s' = i)
  ∧ (appState s = WaitingForSend →
     campaignStatus s' = running ∧ log s' = entry :: log s
     ∧ appState s' = WaitingForSend ∧ currentNumberIndex s' = i
     ∧ actionTimerRef s' = Some (nextTimerId s)
     ∧ pending s' = pending s ++
         [{| tid := nextTimerId s;
             due := clock s + Z.max 0 (sendActionDelay config * 1000);
             callback := SendCb i |}])
  ∧ (appState s = WaitingForNext → i < length (numbers config) →
     campaignStatus s' = running ∧ log s' = entry :: log s
     ∧ appState s' = WaitingForNext ∧ currentNumberIndex s' = i
     ∧ timerRef s' = Some (nextTimerId s)
     ∧ pending s' = pending s ++
         [{| tid := nextTimerId s;
             due := clock s + Z.max 0 (if i =? 0 then 0 else delayBetween config * 1000);
             callback := NextCb i |}]).
Proof.
  destruct s as [ph st lg ix co er tr ar ck ni pe]. exec_app.
  split_and!; try reflexivity.
  - by intros ->.
  - by intros ->.
  - by intros [-> | ->].
  - by intros ->.
  - intros -> Hlt.
    replace (length (numbers config) <=? ix) with false
      by (symmetry; apply Nat.leb_gt; lia).
    done.
Qed.

End Handlers.

(** C2, the claim fails: with two recipients, right after the start the
    phase is WaitingForNext, and a skip there moves the position from 0 to 1
    and logs a SKIPPED entry. *)
Lemma skip_while_WaitingForNext_takes_effect :
  let s := executeStartCampaign twoRecipients initialState in
  let s' := handleSkipNumber twoRecipients s in
  appState s = WaitingForNext
  ∧ currentNumberIndex s = 0 ∧ currentNumberIndex s' = 1
  ∧ List.map status (log s) = [INFO]
  ∧ List.map status (log s') = [SKIPPED; INFO].
Proof. vm_compute. done. Qed.

(** C4, the claim fails: a pause on the stopped application sets the status
    to paused and logs "Campaign paused.". *)
Lemma pause_while_stopped_takes_effect :
  let s' := handlePauseCampaign initialState in
  campaignStatus initialState = stopped
  ∧ campaignStatus s' = paused
  ∧ log initialState = []
  ∧ log s' = [infoEntry 0 (lit "Campaign paused.")].
Proof. vm_compute. done. Qed.

(** C5, the claim fails: a resume in phase Idle sets the status to running
    and logs "Campaign resumed.". *)
Lemma resume_while_Idle_takes_effect :
  let s' := handleResumeCampaign oneRecipient initialState in
  appState initialState = Idle
  ∧ campaignStatus initialState = stopped
  ∧ campaignStatus s' = running
  ∧ log initialState = []
  ∧ log s' = [infoEntry 0 (lit "Campaign resumed.")].
Proof. vm_compute. done. Qed.

(** ** The event loop left alone *)

(** [exec_app] on a configuration given field by field as well. *)
Ltac compute_app :=
  cbv beta iota zeta delta
    [handleSkipNumber handlePauseCampaign handleResumeCampaign
     handleStopCampaign executeStartCampaign runCallback sendCallback
     startSendAction processNextNumber clearTimers clearTimeout setTimeout
     addLog setAppState setCampaignStatus setLog setCurrentNumberIndex
     setConfirmationOpen setErrors setTimerRef setActionTimerRef setClock
     setQueue appState campaignStatus log currentNumberIndex
     isConfirmationOpen errors timerRef actionTimerRef clock nextTimerId
     pending fst snd
     message1 file1 message2 file2 numbers delayBetween sendActionDelay
     monitorNumber monitorMessages tid due callback
     length Nat.leb Nat.eqb Nat.ltb Nat.add Nat.modulo Nat.divmod
     truthy andb negb interpolate lookup list_lookup dequeue List.filter
     infoOrSuccess status] in *.

Section Running.

Variable config : CampaignConfig.

Lemma dequeue_single (t : Timer) : dequeue (tid t) [t] = [].
Proof. unfold dequeue. simpl. by rewrite Pos.eqb_refl. Qed.

(** With one timer armed, the event loop moves the clock to its due time
    (if need be) and runs its callback on the emptied queue. *)
Lemma fireNext_single (s : State) (t : Timer) :
  pending s = [t] →
  fireNext config s
  = Some (runCallback config (callback t)
            (setQueue (nextTimerId s) [] (setClock (Z.max (clock s) (due t)) s))).
Proof.
  intros Hp. unfold fireNext, fire. rewrite Hp. simpl. rewrite Hp. simpl.
  rewrite Pos.eqb_refl. simpl.
  by replace (due t <=? Z.max (clock s) (due t))%Z with true
    by (symmetry; apply Z.leb_le; lia).
Qed.

Lemma fireNext_none (s : State) : pending s = [] → fireNext config s = None.
Proof. intros Hp. unfold fireNext. by rewrite Hp. Qed.

Lemma run_quiescent (fuel : nat) (s : State) :
  pending s = [] → run config fuel s = s.
Proof. intros Hp. destruct fuel; simpl; [done|]. by rewrite fireNext_none. Qed.

Lemma run_step (fuel : nat) (s : State) (t : Timer) :
  pending s = [t] →
  run config (S fuel) s
  = run config fuel
      (runCallback config (callback t)
         (setQueue (nextTimerId s) [] (setClock (Z.max (clock s) (due t)) s))).
Proof. intros Hp. simpl. by rewrite (fireNext_single s t Hp). Qed.

End Running.

(** C6, as the code has it: with exactly three recipients and no monitor
    recipient, a campaign started with no timer outstanding and left alone
    ends finished at position 3, and its log holds exactly five entries, all
    tagged INFO or SUCCESS: "Campaign started.", one SUCCESS entry per
    recipient with template 1, template 2, template 1 in that order, and
    "Campaign finished." (newest first in the log). *)
Theorem three_recipients_full_run (config : CampaignConfig) (s0 : State)
    (a b c : jsstring) (fuel : nat) :
  numbers config = [a; b; c] →
  monitorNumber config = [] →
  pending s0 = [] →
  6 ≤ fuel →
  let s := run config fuel (executeStartCampaign config s0) in
  let S := Z.max 0 (sendActionDelay config * 1000) in
  let D := Z.max 0 (delayBetween config * 1000) in
  let t1 := (clock s0 + S)%Z in
  let t2 := (t1 + D + S)%Z in
  let t3 := (t2 + D + S)%Z in
  campaignStatus s = finished ∧ appState s = Finished
  ∧ currentNumberIndex s = 3 ∧ pending s = []
  ∧ log s = [ infoEntry t3 (lit "Campaign finished.");
              successEntry t3 c (message1 config) (file1 config);
              successEntry t2 b (message2 config) (file2 config);
              successEntry t1 a (message1 config) (file1 config);
              infoEntry (clock s0) (lit "Campaign started.") ]
  ∧ length (List.filter infoOrSuccess (log s)) = 5
  ∧ length (log s) = 5.
Proof.
  intros Hn Hm Hp Hfuel.
  do 6 (destruct fuel as [|fuel]; [lia|]). clear Hfuel.
  destruct config as [m1 f1 m2 f2 ns db sd mn mm]; simpl in Hn, Hm; subst.
  destruct s0 as [ph st lg ix co er tr ar ck ni pe]; simpl in Hp; subst.
  compute_app.
  do 6 (erewrite run_step by reflexivity; compute_app).
  rewrite run_quiescent by reflexivity.
  unfold infoEntry, successEntry. compute_app.
  split_and!; try reflexivity.
  repeat f_equal; lia.
Qed.


(** ** Campaigns run within the operator's protocol *)

Section Protocol.

Variable config : CampaignConfig.

Lemma clearTimers_status (s : State) :
  campaignStatus (clearTimers s) = campaignStatus s.
Proof. apply clearTimers_frame. Qed.

(** What a consistent state has armed. *)
Lemma consistent_pending (s : State) (t : Timer) :
  consistent config s → t ∈ pending s →
  pending s = [t] ∧ campaignStatus s = running
  ∧ currentNumberIndex s < length (numbers config)
  ∧ ((appState s = WaitingForNext ∧ timerRef s = Some (tid t)
      ∧ actionTimerRef s ≠ Some (tid t)
      ∧ callback t = NextCb (currentNumberIndex s))
     ∨ (appState s = WaitingForSend ∧ actionTimerRef s = Some (tid t)
        ∧ timerRef s ≠ Some (tid t)
        ∧ callback t = SendCb (currentNumberIndex s))).
Proof.
  intros [_ Hc] Hin.
  destruct (campaignStatus s), (appState s); try done;
    try (destruct Hc as [_ Hp]; rewrite Hp in Hin; by apply elem_of_nil in Hin);
    destruct Hc as (Hlt & u & Hp & Href & Hne & Hcb);
    rewrite Hp in Hin; apply list_elem_of_singleton in Hin as ->;
    split_and!; auto.
Qed.

Lemma consistent_quiescent (s : State) :
  consistent config s → campaignStatus s ≠ running → pending s = [].
Proof.
  intros Hc Hst. destruct (pending s) as [|t q] eqn:Hp; [done|].
  assert (Hin : t ∈ pending s) by (rewrite Hp; left).
  by destruct (consistent_pending s t Hc Hin) as (_ & ? & _).
Qed.

Lemma consistent_running (s : State) :
  consistent config s → campaignStatus s = running →
  ∃ t, pending s = [t].
Proof.
  intros [_ Hc] Hst. rewrite Hst in Hc.
  destruct (appState s); try done; destruct Hc as (_ & t & ? & _); by exists t.
Qed.

(** [processNextNumber] on a running campaign with no timer armed. *)
Lemma processNextNumber_consistent (i : nat) (s : State) :
  handlesIssued s → pending s = [] → campaignStatus s = running →
  currentNumberIndex s = i → i ≤ length (numbers config) →
  consistent config (processNextNumber config i s).
Proof.
  intros (Ht & Ha & Hq) Hp Hst Hix Hle.
  destruct s as [ph st lg ix co er tr ar ck ni pe]; simpl in *. subst.
  unfold consistent, handlesIssued.
  destruct tr as [r|], ar as [a|]; exec_app;
    destruct (Nat.leb_spec (length (numbers config)) i) as [Hge|Hlt]; simpl;
    (split; [split_and! | idtac]).
  all: try (intros t Hin; by apply elem_of_nil in Hin).
  all: try (intros t Hin; apply list_elem_of_singleton in Hin as ->; simpl; lia).
  all: try (intros id [= <-]; lia).
  all: try (intros id Hid; first [specialize (Ha id Hid) | specialize (Ht id Hid)]; lia).
  all: try done.
  all: try (split; [lia | done]).
  all: split; [done|]; eexists; split_and!; try reflexivity; simpl; try done.
  all: intros [= Hid]; specialize (Ha _ eq_refl); lia.
Qed.

(** [startSendAction] on a running campaign with no timer armed. *)
Lemma startSendAction_consistent (i : nat) (s : State) :
  handlesIssued s → pending s = [] → campaignStatus s = running →
  currentNumberIndex s = i → i < length (numbers config) →
  consistent config (startSendAction config i s).
Proof.
  intros (Ht & Ha & Hq) Hp Hst Hix Hlt.
  destruct s as [ph st lg ix co er tr ar ck ni pe]; simpl in *. subst.
  exec_app. split.
  - split_and!; simpl.
    + intros id Hid. specialize (Ht id Hid). lia.
    + intros id [= <-]. lia.
    + intros t Hin. apply list_elem_of_singleton in Hin as ->. simpl. lia.
  - simpl. split; [done|]. eexists. split_and!; try reflexivity. simpl.
    intros Hid. specialize (Ht _ Hid). lia.
Qed.

#[local] Arguments processNextNumber : simpl never.
#[local] Arguments startSendAction : simpl never.
#[local] Arguments clearTimers : simpl never.

Lemma handlesIssued_quiescent (s : State) :
  timerRef s = None → actionTimerRef s = None → pending s = [] → handlesIssued s.
Proof.
  intros Ht Ha Hp. unfold handlesIssued. rewrite Ht, Ha, Hp.
  split_and!; try done. intros t Hin. by apply elem_of_nil in Hin.
Qed.

Lemma consistent_start (s0 : State) :
  handlesIssued s0 → pending s0 = [] →
  consistent config (executeStartCampaign config s0).
Proof.
  intros Hh Hp. unfold executeStartCampaign.
  apply processNextNumber_consistent; try done; lia.
Qed.

Lemma consistent_elapse (c : Z) (s : State) :
  consistent config s → consistent config (setClock c s).
Proof. by destruct s. Qed.

Lemma handlePauseCampaign_frame (s : State) :
  campaignStatus (handlePauseCampaign s) = paused
  ∧ appState (handlePauseCampaign s) = appState s
  ∧ currentNumberIndex (handlePauseCampaign s) = currentNumberIndex s
  ∧ timerRef (handlePauseCampaign s) = None
  ∧ actionTimerRef (handlePauseCampaign s) = None
  ∧ pending (handlePauseCampaign s) = pending (clearTimers s).
Proof. by destruct s as [ph st lg ix co er tr ar ck ni pe], tr, ar. Qed.

Lemma handleStopCampaign_frame (s : State) :
  campaignStatus (handleStopCampaign s) = stopped
  ∧ appState (handleStopCampaign s) = Idle
  ∧ currentNumberIndex (handleStopCampaign s) = currentNumberIndex s
  ∧ timerRef (handleStopCampaign s) = None
  ∧ actionTimerRef (handleStopCampaign s) = None
  ∧ pending (handleStopCampaign s) = pending (clearTimers s).
Proof. by destruct s as [ph st lg ix co er tr ar ck ni pe], tr, ar. Qed.

Lemma consistent_clearTimers (s : State) :
  consistent config s → pending (clearTimers s) = [].
Proof.
  intros Hc. apply clearTimers_quiescent. intros t Hin.
  destruct (consistent_pending s t Hc Hin)
    as (_ & _ & _ & [(_ & ? & _)|(_ & ? & _)]); auto.
Qed.

Lemma consistent_pause (s : State) :
  consistent config s → campaignStatus s = running →
  consistent config (handlePauseCampaign s).
Proof.
  intros Hc Hst.
  destruct (handlePauseCampaign_frame s) as (F1 & F2 & F3 & F4 & F5 & F6).
  rewrite (consistent_clearTimers s Hc) in F6.
  split; [by apply handlesIssued_quiescent|].
  rewrite F1, F2, F3, F6.
  destruct Hc as [_ Hc]. rewrite Hst in Hc.
  destruct (appState s); try done; by destruct Hc as (Hlt & _).
Qed.

Lemma consistent_stop (s : State) :
  consistent config s → campaignStatus s = running ∨ campaignStatus s = paused →
  consistent config (handleStopCampaign s).
Proof.
  intros Hc Hst.
  destruct (handleStopCampaign_frame s) as (F1 & F2 & F3 & F4 & F5 & F6).
  rewrite (consistent_clearTimers s Hc) in F6.
  split; [by apply handlesIssued_quiescent|].
  rewrite F1, F2, F3, F6.
  destruct Hc as [_ Hc].
  destruct Hst as [Hst|Hst]; rewrite Hst in Hc;
    destruct (appState s); try done; by destruct Hc as (Hlt & _).
Qed.

Lemma consistent_resume (s : State) :
  consistent config s → campaignStatus s = paused →
  consistent config (handleResumeCampaign config s).
Proof.
  intros [Hh Hc] Hst. rewrite Hst in Hc. unfold handleResumeCampaign.
  destruct (appState s); try done; destruct Hc as [Hlt Hp].
  - apply processNextNumber_consistent; try done. lia.
  - by apply startSendAction_consistent.
Qed.

Lemma consistent_skip (s : State) :
  consistent config s → campaignStatus s = running → appState s = WaitingForSend →
  consistent config (handleSkipNumber config s).
Proof.
  intros [(Ht & Ha & Hq) Hc] Hst Hph. rewrite Hst, Hph in Hc.
  destruct Hc as (Hlt & t & Hp & Href & Hne & Hcb).
  unfold handleSkipNumber. rewrite Href.
  apply processNextNumber_consistent; simpl; try done; try lia.
  - split_and!; simpl; try done. rewrite Hp, dequeue_single.
    intros u Hin. by apply elem_of_nil in Hin.
  - by rewrite Hp, dequeue_single.
Qed.

Lemma fire_single (id : positive) (s s' : State) (t : Timer) :
  pending s = [t] → fire config id s = Some s' →
  id = tid t
  ∧ s' = runCallback config (callback t) (setQueue (nextTimerId s) [] s).
Proof.
  intros Hp. unfold fire. rewrite Hp. simpl.
  destruct (Pos.eqb_spec (tid t) id) as [<-|]; [|done].
  destruct (due t <=? clock s)%Z; [|done]. simpl.
  by intros [= <-].
Qed.

Lemma consistent_fire (id : positive) (s s' : State) :
  consistent config s → fire config id s = Some s' → consistent config s'.
Proof.
  intros Hc Hf.
  destruct (fire_pending config id s s' Hf) as (t & Hin & _).
  destruct (consistent_pending s t Hc Hin) as (Hp & Hst & Hlt & Hcase).
  destruct (fire_single id s s' t Hp Hf) as [-> ->].
  destruct Hc as [(Ht & Ha & Hq) _].
  assert (Hh : handlesIssued (setQueue (nextTimerId s) [] s)).
  { split_and!; simpl; try done. intros u Hu. by apply elem_of_nil in Hu. }
  destruct Hcase as [(Hph & Href & Hne & Hcb)|(Hph & Href & Hne & Hcb)];
    rewrite Hcb; simpl.
  - by apply startSendAction_consistent.
  - unfold sendCallback.
    apply processNextNumber_consistent; try lia;
      by destruct (truthy _ && _).
Qed.

(** Every operation made within the protocol keeps the state consistent. *)
Lemma consistent_apply (op : Op) (s s' : State) :
  consistent config s → inProtocol s op = true → apply config op s = Some s' →
  consistent config s'.
Proof.
  intros Hc Hallow Hop. destruct op; simpl in *.
  - destruct (0 <=? dt)%Z; [|done]. injection Hop as <-.
    by apply consistent_elapse.
  - by eapply consistent_fire.
  - apply andb_true_iff in Hallow as [H1 H2].
    apply bool_decide_eq_true in H1, H2. injection Hop as <-.
    by apply consistent_skip.
  - apply bool_decide_eq_true in Hallow. injection Hop as <-.
    by apply consistent_pause.
  - apply bool_decide_eq_true in Hallow. injection Hop as <-.
    by apply consistent_resume.
  - apply orb_true_iff in Hallow. injection Hop as <-.
    apply consistent_stop; [done|].
    destruct Hallow as [H|H]; apply bool_decide_eq_true in H; auto.
Qed.

Lemma consistent_runOps (ops : list Op) (s s' : State) :
  consistent config s → runOps config inProtocol ops s = Some s' →
  consistent config s'.
Proof.
  revert s. induction ops as [|op ops IH]; intros s Hc; simpl.
  - by intros [= <-].
  - destruct (inProtocol s op) eqn:Hallow; [|done].
    destruct (apply config op s) as [s1|] eqn:Hop; [|done].
    apply IH. by eapply consistent_apply.
Qed.

(** *** Handles are never reused *)

Lemma grows_refl (s : State) : grows s s.
Proof. split; [lia | auto]. Qed.

Lemma grows_trans (s1 s2 s3 : State) : grows s1 s2 → grows s2 s3 → grows s1 s3.
Proof.
  intros [H1 Q1] [H2 Q2]. split; [lia|].
  intros t Hin. destruct (Q2 t Hin) as [Hin2|]; [|right; lia].
  destruct (Q1 t Hin2); [by left | right; lia].
Qed.

Lemma grows_same (s s' : State) :
  nextTimerId s' = nextTimerId s → pending s' = pending s → grows s s'.
Proof. intros Hn Hp. split; [lia|]. rewrite Hp. auto. Qed.

Lemma grows_clearTimeout (ref : option positive) (s : State) :
  grows s (clearTimeout ref s).
Proof.
  destruct ref as [id|]; [|apply grows_refl]. split; simpl; [lia|].
  intros t Hin. left. by apply dequeue_tid in Hin as [_ ?].
Qed.

Lemma grows_clearTimers (s : State) : grows s (clearTimers s).
Proof.
  split; [destruct (clearTimers_frame s) as (_ & _ & _ & _ & _ & -> & _); lia|].
  intros t Hin. left. by apply pending_clearTimers in Hin as [? _].
Qed.

Lemma grows_processNextNumber (i : nat) (s : State) :
  grows s (processNextNumber config i s).
Proof.
  unfold processNextNumber. destruct (length (numbers config) <=? i).
  - eapply grows_trans; [|apply grows_clearTimers]. by apply grows_same.
  - split; simpl; [lia|]. intros t Hin.
    apply elem_of_app in Hin as [Hin|Hin]; [by left|].
    apply list_elem_of_singleton in Hin as ->. right. simpl. lia.
Qed.

Lemma grows_startSendAction (i : nat) (s : State) :
  grows s (startSendAction config i s).
Proof.
  unfold startSendAction. split; simpl; [lia|]. intros t Hin.
  apply elem_of_app in Hin as [Hin|Hin]; [by left|].
  apply list_elem_of_singleton in Hin as ->. right. simpl. lia.
Qed.

Lemma pending_processNextNumber (i : nat) (s : State) (u : Timer) :
  u ∈ pending (processNextNumber config i s) →
  u ∈ pending s ∨ tid u = nextTimerId s.
Proof.
  unfold processNextNumber. destruct (length (numbers config) <=? i).
  - intros Hin. apply pending_clearTimers in Hin as [Hin _]. by left.
  - simpl. intros Hin.
    apply elem_of_app in Hin as [Hin|Hin]; [by left|].
    apply list_elem_of_singleton in Hin as ->. by right.
Qed.

Lemma pending_skip (s : State) (u : Timer) :
  u ∈ pending (handleSkipNumber config s) →
  (u ∈ pending s ∧ actionTimerRef s ≠ Some (tid u)) ∨ tid u = nextTimerId s.
Proof.
  unfold handleSkipNumber. intros Hin.
  apply pending_processNextNumber in Hin.
  destruct (actionTimerRef s) as [a|] eqn:Ha; simpl in Hin.
  - destruct Hin as [Hin|Hin]; [|by right].
    apply dequeue_tid in Hin as [Hne Hin]. left. split; [done|]. congruence.
  - destruct Hin as [Hin|Hin]; [left; by split | by right].
Qed.

Lemma grows_apply (op : Op) (s s' : State) :
  apply config op s = Some s' → grows s s'.
Proof.
  destruct op; simpl.
  - destruct (0 <=? dt)%Z; [|done]. intros [= <-]. by apply grows_same.
  - unfold fire. destruct (nextDue (pending s)) as [t|]; [|done].
    destruct (_ && _); [|done]. intros [= <-].
    apply grows_trans with (setQueue (nextTimerId s) (dequeue id (pending s)) s).
    { split; simpl; [lia|]. intros u Hu. left. by apply dequeue_tid in Hu as [_ ?]. }
    destruct (callback t); simpl; [apply grows_startSendAction|].
    unfold sendCallback.
    eapply grows_trans; [|apply grows_processNextNumber].
    apply grows_same; by destruct (truthy _ && _).
  - intros [= <-]. unfold handleSkipNumber.
    eapply grows_trans; [|apply grows_processNextNumber].
    destruct (actionTimerRef s) as [a|]; [|by apply grows_same].
    apply grows_trans with (clearTimeout (Some a) s);
      [apply grows_clearTimeout | by apply grows_same].
  - intros [= <-]. unfold handlePauseCampaign.
    eapply grows_trans; [apply grows_clearTimers | by apply grows_same].
  - intros [= <-]. unfold handleResumeCampaign.
    destruct (appState s); try (by apply grows_same).
    + eapply grows_trans; [|apply grows_processNextNumber]. by apply grows_same.
    + eapply grows_trans; [|apply grows_startSendAction]. by apply grows_same.
  - intros [= <-]. unfold handleStopCampaign.
    eapply grows_trans; [apply grows_clearTimers | by apply grows_same].
Qed.

Lemma spent_grows (s s' : State) (id : positive) :
  spent s id → grows s s' → spent s' id.
Proof.
  intros [Hlt Hno] [Hn Hq]. split; [lia|].
  intros t Hin. destruct (Hq t Hin) as [Hold|Hnew]; [by apply Hno | lia].
Qed.

Lemma spent_no_fire (s : State) (id : positive) :
  spent s id → fire config id s = None.
Proof.
  intros [_ Hno]. destruct (fire config id s) as [s'|] eqn:Hf; [|done].
  apply fire_pending in Hf as (t & Hin & Heq). by destruct (Hno t Hin).
Qed.

(** A handle that is spent is never fired again, whatever is done. *)
Lemma spent_never_fires (allow : State → Op → bool) (ops : list Op)
    (s s' : State) (id : positive) :
  spent s id → runOps config allow ops s = Some s' → Fire id ∉ ops.
Proof.
  revert s. induction ops as [|op ops IH]; intros s Hs; simpl.
  - intros _. apply not_elem_of_nil.
  - destruct (allow s op); [|done].
    destruct (apply config op s) as [s1|] eqn:Hop; [|done].
    intros Hrun. apply not_elem_of_cons. split.
    + intros <-. simpl in Hop. by rewrite (spent_no_fire s id Hs) in Hop.
    + apply (IH s1); [|done]. eapply spent_grows; [done|]. by eapply grows_apply.
Qed.

(** Stop, pause and skip, made within the protocol, leave every timer that
    was armed spent. *)
Lemma cancel_spent (op : Op) (s s' : State) (t : Timer) :
  consistent config s → op = Stop ∨ op = Pause ∨ op = Skip →
  inProtocol s op = true → apply config op s = Some s' →
  t ∈ pending s → spent s' (tid t).
Proof.
  intros Hc Hop Hallow Happ Hin.
  pose proof (consistent_apply op s s' Hc Hallow Happ) as Hc'.
  pose proof (grows_apply op s s' Happ) as [Hn _].
  destruct (consistent_pending s t Hc Hin) as (Hp & Hst & _ & Hcase).
  destruct Hc as [(_ & _ & Hq) _]. specialize (Hq t Hin).
  split; [lia|]. intros u Hu.
  destruct Hop as [-> | [-> | ->]]; simpl in Happ; injection Happ as <-.
  - rewrite (consistent_quiescent (handleStopCampaign s)) in Hu by done.
    by apply elem_of_nil in Hu.
  - rewrite (consistent_quiescent (handlePauseCampaign s)) in Hu by done.
    by apply elem_of_nil in Hu.
  - simpl in Hallow. apply andb_true_iff in Hallow as [_ Hph].
    apply bool_decide_eq_true in Hph.
    destruct Hcase as [(Hph' & _)|(_ & Href & _)]; [congruence|].
    apply pending_skip in Hu as [[Hu Hne]|Hu]; [|lia].
    rewrite Hp in Hu. apply list_elem_of_singleton in Hu as ->. congruence.
Qed.

Lemma runOps_app (allow : State → Op → bool) (ops1 ops2 : list Op) (s : State) :
  runOps config allow (ops1 ++ ops2) s
  = match runOps config allow ops1 s with
    | Some s1 => runOps config allow ops2 s1
    | None => None
    end.
Proof.
  revert s. induction ops1 as [|op ops1 IH]; intros s; simpl; [done|].
  destruct (allow s op); [|done]. by destruct (apply config op s).
Qed.

(** C1, within the protocol: in every state a started campaign reaches by
    timer fires, elapsing time, and skip, pause, resume and stop each used
    where the protocol has it, the position is between 0 and the number of
    recipients, and it is the number of recipients only in phase
    Finished. *)
Theorem position_within_bounds (s0 : State) (ops : list Op) (s : State) :
  handlesIssued s0 → pending s0 = [] →
  runOps config inProtocol ops (executeStartCampaign config s0) = Some s →
  0 ≤ currentNumberIndex s ≤ length (numbers config)
  ∧ (currentNumberIndex s = length (numbers config) → appState s = Finished).
Proof.
  intros Hh Hp Hrun.
  pose proof (consistent_runOps ops _ s (consistent_start s0 Hh Hp) Hrun) as [_ Hc].
  destruct (campaignStatus s), (appState s); try done;
    destruct Hc as [Hlt _]; (split; [lia|]); first [done | intros; lia].
Qed.

(** C3, within the protocol: in every state a started campaign reaches, at
    most one timer is outstanding, so the two slots are never armed
    together, and the outstanding timer is the one of the current phase, held
    by that phase's slot, for the current position, in a running campaign.
    A timer that was armed when stop, pause or skip was invoked never fires
    afterwards. *)
Theorem one_timer_and_no_stale_callback (s0 : State) (ops : list Op) (s : State) :
  handlesIssued s0 → pending s0 = [] →
  runOps config inProtocol ops (executeStartCampaign config s0) = Some s →
  length (pending s) ≤ 1
  ∧ slotArmed (timerRef s) s && slotArmed (actionTimerRef s) s = false
  ∧ (∀ t, t ∈ pending s →
       campaignStatus s = running
       ∧ ((appState s = WaitingForNext ∧ timerRef s = Some (tid t)
           ∧ callback t = NextCb (currentNumberIndex s))
          ∨ (appState s = WaitingForSend ∧ actionTimerRef s = Some (tid t)
             ∧ callback t = SendCb (currentNumberIndex s))))
  ∧ (∀ ops1 op ops2 s1 t,
       ops = ops1 ++ op :: ops2 →
       op = Stop ∨ op = Pause ∨ op = Skip →
       runOps config inProtocol ops1 (executeStartCampaign config s0) = Some s1 →
       t ∈ pending s1 →
       Fire (tid t) ∉ ops2).
Proof.
  intros Hh Hp Hrun.
  pose proof (consistent_start s0 Hh Hp) as Hc0.
  pose proof (consistent_runOps ops _ s Hc0 Hrun) as Hc.
  split_and!.
  - destruct (pending s) as [|t q] eqn:Hq; [simpl; lia|].
    assert (Hin : t ∈ pending s) by (rewrite Hq; left).
    destruct (consistent_pending s t Hc Hin) as (Hq' & _).
    rewrite Hq' in Hq. injection Hq as <-. simpl. lia.
  - destruct (pending s) as [|t q] eqn:Hq.
    { unfold slotArmed. rewrite Hq. by destruct (timerRef s). }
    assert (Hin : t ∈ pending s) by (rewrite Hq; left).
    destruct (consistent_pending s t Hc Hin) as (Hq' & _ & _ & Hcase).
    unfold slotArmed. rewrite Hq'. simpl.
    destruct Hcase as [(_ & _ & Hne & _)|(_ & _ & Hne & _)].
    + apply andb_false_iff. right. destruct (actionTimerRef s) as [a|]; [|done].
      rewrite orb_false_r. apply Pos.eqb_neq. congruence.
    + apply andb_false_iff. left. destruct (timerRef s) as [a|]; [|done].
      rewrite orb_false_r. apply Pos.eqb_neq. congruence.
  - intros t Hin.
    destruct (consistent_pending s t Hc Hin) as (_ & Hst & _ & Hcase).
    split; [done|]. destruct Hcase as [(? & ? & _ & ?)|(? & ? & _ & ?)]; auto.
  - intros ops1 op ops2 s1 t -> Hop Hrun1 Hin.
    rewrite runOps_app, Hrun1 in Hrun. simpl in Hrun.
    destruct (inProtocol s1 op) eqn:Hallow; [|done].
    destruct (apply config op s1) as [s2|] eqn:Happ; [|done].
    pose proof (consistent_runOps ops1 _ s1 Hc0 Hrun1) as Hc1.
    eapply spent_never_fires; [|exact Hrun].
    by eapply cancel_spent.
Qed.

(** *** Running to the end, and the same run delayed *)

Lemma fireNext_consistent (s : State) :
  consistent config s → campaignStatus s = running →
  ∃ s', fireNext config s = Some s' ∧ consistent config s'
    ∧ (campaignStatus s' = finished
       ∨ (campaignStatus s' = running ∧ stepsLeft config s' < stepsLeft config s)).
Proof.
  intros Hc Hst. destruct (consistent_running s Hc Hst) as [t Hp].
  assert (Hin : t ∈ pending s) by (rewrite Hp; left).
  destruct (consistent_pending s t Hc Hin) as (_ & _ & Hlt & Hcase).
  rewrite (fireNext_single config s t Hp). eexists. split; [done|].
  assert (Hf : fire config (tid t) (setClock (Z.max (clock s) (due t)) s)
               = Some (runCallback config (callback t)
                         (setQueue (nextTimerId s) []
                            (setClock (Z.max (clock s) (due t)) s)))).
  { unfold fire. simpl. rewrite Hp. simpl. rewrite Pos.eqb_refl. simpl.
    by replace (due t <=? Z.max (clock s) (due t))%Z with true
      by (symmetry; apply Z.leb_le; lia). }
  split.
  { eapply consistent_fire; [|exact Hf]. by apply consistent_elapse. }
  unfold stepsLeft.
  destruct Hcase as [(Hph & _ & _ & Hcb)|(Hph & _ & _ & Hcb)]; rewrite Hcb, Hph.
  - right. unfold runCallback, startSendAction. simpl. split; [done|]. lia.
  - unfold runCallback, sendCallback, processNextNumber.
    destruct (Nat.leb_spec (length (numbers config)) (currentNumberIndex s + 1)).
    + left. rewrite clearTimers_status. reflexivity.
    + right. simpl. split; [by destruct (truthy _ && _)|]. lia.
Qed.

Ltac split_off_new_entries :=
  lazymatch goal with
  | |- ∃ n, ?a :: ?b :: ?c :: ?l = n ++ ?l ∧ _ => exists [a; b; c]
  | |- ∃ n, ?a :: ?b :: ?l = n ++ ?l ∧ _ => exists [a; b]
  | |- ∃ n, ?a :: ?l = n ++ ?l ∧ _ => exists [a]
  | |- ∃ n, ?l = n ++ ?l ∧ _ => exists []
  end.

(** One firing keeps two such states in step: both fire or neither does, and
    they log the same entries, [d] apart. *)
Lemma delayedBy_fireNext (d : Z) (s1 s2 : State) :
  delayedBy d s1 s2 →
  match fireNext config s1, fireNext config s2 with
  | Some s1', Some s2' =>
      delayedBy d s1' s2'
      ∧ ∃ n, log s1' = n ++ log s1 ∧ log s2' = List.map (later d) n ++ log s2
  | None, None => True
  | _, _ => False
  end.
Proof.
  intros (Hph & Hst & Hix & [[Hp1 Hp2] | (t1 & t2 & Hp1 & Hp2 & Hcb & Hmax)]).
  { by rewrite !fireNext_none. }
  rewrite (fireNext_single config s1 t1 Hp1), (fireNext_single config s2 t2 Hp2).
  rewrite Hcb, Hmax. generalize (Z.max (clock s1) (due t1)) as M. intros M.
  clear Hmax Hp1 Hp2 Hcb.
  destruct s1 as [ph1 st1 lg1 ix1 co1 er1 tr1 ar1 ck1 ni1 pe1].
  destruct s2 as [ph2 st2 lg2 ix2 co2 er2 tr2 ar2 ck2 ni2 pe2].
  simpl in Hph, Hst, Hix. subst.
  unfold delayedBy. destruct (callback t1) as [i|i].
  - exec_app. split.
    + split_and!; try reflexivity. right. eexists _, _.
      split_and!; try reflexivity. simpl. lia.
    + by exists [].
  - unfold runCallback, sendCallback, processNextNumber.
    destruct (truthy _ && _), (length (numbers config) <=? i + 1),
      tr1, ar1, tr2, ar2; exec_app;
      (split;
       [ split_and!; try reflexivity;
         first [ left; split; reflexivity
               | right; eexists _, _; split_and!; try reflexivity; simpl; lia ]
       | split_off_new_entries; split; reflexivity ]).
Qed.

Lemma delayedBy_run (d : Z) (fuel : nat) (s1 s2 : State) :
  delayedBy d s1 s2 →
  delayedBy d (run config fuel s1) (run config fuel s2)
  ∧ ∃ n, log (run config fuel s1) = n ++ log s1
         ∧ log (run config fuel s2) = List.map (later d) n ++ log s2.
Proof.
  revert s1 s2. induction fuel as [|fuel IH]; intros s1 s2 Hd; simpl.
  { split; [done|]. by exists []. }
  pose proof (delayedBy_fireNext d s1 s2 Hd) as Hstep.
  destruct (fireNext config s1) as [s1'|], (fireNext config s2) as [s2'|];
    try done.
  - destruct Hstep as (Hd' & n & Hn1 & Hn2).
    destruct (IH s1' s2' Hd') as (Hdr & m & Hm1 & Hm2).
    split; [done|]. exists (m ++ n).
    rewrite Hm1, Hm2, Hn1, Hn2, List.map_app, <- !app_assoc. done.
  - split; [done|]. by exists [].
Qed.

(** A running campaign left alone comes to its end. *)
Lemma run_finishes (fuel : nat) (s : State) :
  consistent config s → campaignStatus s = running →
  stepsLeft config s ≤ fuel →
  campaignStatus (run config fuel s) = finished
  ∧ pending (run config fuel s) = [].
Proof.
  revert s. induction fuel as [|fuel IH]; intros s Hc Hst Hfuel.
  - exfalso.
    destruct (consistent_running s Hc Hst) as [t Hp].
    assert (Hin : t ∈ pending s) by (rewrite Hp; left).
    destruct (consistent_pending s t Hc Hin) as (_ & _ & Hlt & _).
    unfold stepsLeft in Hfuel. destruct (appState s); lia.
  - destruct (fireNext_consistent s Hc Hst) as (s' & Hf & Hc' & Hcase).
    simpl. rewrite Hf. destruct Hcase as [Hfin | [Hrun Hless]].
    + assert (Hq : pending s' = []) by (apply consistent_quiescent; congruence).
      by rewrite run_quiescent.
    + apply IH; [done | done | lia].
Qed.

(** After pause and resume the same timer is armed again, at its full
    delay. *)
Lemma pause_resume_delayed (s : State) (t : Timer) :
  consistent config s → campaignStatus s = running → pending s = [t] →
  delayedBy (clock s + Z.max 0 (fullDelay config s) - Z.max (clock s) (due t))
    s (handleResumeCampaign config (handlePauseCampaign s))
  ∧ log (handleResumeCampaign config (handlePauseCampaign s))
    = infoEntry (clock s) (lit "Campaign resumed.")
      :: infoEntry (clock s) (lit "Campaign paused.") :: log s.
Proof.
  intros Hc Hst Hp.
  assert (Hin : t ∈ pending s) by (rewrite Hp; left).
  destruct (consistent_pending s t Hc Hin) as (_ & _ & Hlt & Hcase).
  assert (Hlen : (length (numbers config) <=? currentNumberIndex s) = false)
    by (apply Nat.leb_gt; lia).
  unfold delayedBy, fullDelay.
  destruct s as [ph st lg ix co er tr ar ck ni pe]; simpl in *. subst.
  destruct Hcase as [(-> & Href & Hne & Hcb)|(-> & Href & Hne & Hcb)];
    destruct tr as [r|], ar as [a|]; try done;
    injection Href as ->; exec_app;
    rewrite ?Hlen; exec_app; simpl; rewrite ?Pos.eqb_refl; simpl;
    repeat match goal with
      | |- context [(tid t =? ?x)%positive] =>
          replace (tid t =? x)%positive with false
            by (symmetry; apply Pos.eqb_neq; congruence); simpl
      end;
    rewrite ?Pos.eqb_refl; simpl;
    (split; [|reflexivity]); split_and!; try reflexivity;
    right; eexists _, _; split_and!; try reflexivity; simpl; try done;
    destruct (ix =? 0); lia.
Qed.

(** C7, as the code has it: for a running campaign, pausing and resuming at
    once does not give the same log as never pausing. It gives the entries
    "Campaign paused." and "Campaign resumed.", and after them the entries
    the campaign would have logged anyway, each with the same text, tag and
    payload, and stamped later by the part of the interrupted delay that had
    gone by (the delay starts again in full). Both runs end finished. *)
Theorem pause_resume_same_entries_later (s0 : State) (ops : list Op) (s : State)
    (fuel : nat) :
  handlesIssued s0 → pending s0 = [] →
  runOps config inProtocol ops (executeStartCampaign config s0) = Some s →
  campaignStatus s = running →
  let never := run config fuel s in
  let again := run config fuel (handleResumeCampaign config (handlePauseCampaign s)) in
  ∃ (t : Timer) (new : list LogEntry),
    pending s = [t]
    ∧ log never = new ++ log s
    ∧ log again
      = List.map (later (clock s + Z.max 0 (fullDelay config s)
                         - Z.max (clock s) (due t))) new
        ++ infoEntry (clock s) (lit "Campaign resumed.")
        :: infoEntry (clock s) (lit "Campaign paused.") :: log s
    ∧ appState again = appState never
    ∧ campaignStatus again = campaignStatus never
    ∧ currentNumberIndex again = currentNumberIndex never
    ∧ (2 * length (numbers config) ≤ fuel →
       campaignStatus never = finished ∧ pending never = [] ∧ pending again = []).
Proof.
  intros Hh Hp0 Hrun Hst. simpl.
  pose proof (consistent_runOps ops _ s (consistent_start s0 Hh Hp0) Hrun) as Hc.
  destruct (consistent_running s Hc Hst) as [t Hp].
  destruct (pause_resume_delayed s t Hc Hst Hp) as [Hd Hlog].
  destruct (delayedBy_run _ fuel _ _ Hd) as ((Hph & Hst' & Hix & Hq) & n & Hn1 & Hn2).
  exists t, n. rewrite Hlog in Hn2. split_and!; try done.
  intros Hfuel.
  destruct (run_finishes fuel s Hc Hst) as [Hfin Hquiet].
  { unfold stepsLeft. lia. }
  split_and!; try done.
  destruct Hq as [[_ ?]|(t1 & ? & Hp1 & _)]; [done | congruence].
Qed.

End Protocol.

(** ** The claims on sample campaigns *)

Lemma handlesIssued_initialState : handlesIssued initialState.
Proof.
  split_and!; try done. intros t Hin. by apply elem_of_nil in Hin.
Qed.

(** C1 holds on the sample run, which ends finished at position 2 of 2. *)
Lemma position_within_bounds_witness :
  ∃ s, runOps twoRecipients inProtocol sampleRun
         (executeStartCampaign twoRecipients initialState) = Some s
       ∧ 0 ≤ currentNumberIndex s ≤ 2
       ∧ (currentNumberIndex s = 2 → appState s = Finished).
Proof.
  eexists. split; [vm_compute; reflexivity|].
  apply (position_within_bounds twoRecipients initialState sampleRun);
    [apply handlesIssued_initialState | reflexivity | vm_compute; reflexivity].
Defined.

(** C1, the claim fails for arbitrary handler calls: with three recipients,
    four skips in a row leave the position at 4; and three skips followed by
    the firing of the first next-delay timer, which no skip cancelled, leave
    the position at 3, the number of recipients, in phase WaitingForSend. *)
Lemma position_overruns_outside_protocol :
  let start := executeStartCampaign threeRecipients initialState in
  length (numbers threeRecipients) = 3
  ∧ (∃ s, runOps threeRecipients anyCall [Skip; Skip; Skip; Skip] start = Some s
          ∧ currentNumberIndex s = 4)
  ∧ (∃ s, runOps threeRecipients anyCall [Skip; Skip; Skip; Fire 1] start = Some s
          ∧ currentNumberIndex s = 3 ∧ appState s = WaitingForSend).
Proof.
  split; [reflexivity|].
  split; eexists; (split; [vm_compute; reflexivity|]); by vm_compute.
Qed.

(** C3 holds on the sample run: at its end no timer is outstanding, and the
    send timer that the pause cancelled (handle 2) never fires afterwards. *)
Lemma one_timer_and_no_stale_callback_witness :
  ∃ s, runOps twoRecipients inProtocol sampleRun
         (executeStartCampaign twoRecipients initialState) = Some s
       ∧ length (pending s) ≤ 1
       ∧ slotArmed (timerRef s) s && slotArmed (actionTimerRef s) s = false
       ∧ Fire 2 ∉ [Elapse 60000; Resume; Elapse 5000; Fire 3; Elapse 15000;
                   Fire 4; Skip].
Proof.
  eexists. split; [vm_compute; reflexivity|].
  match goal with
  | |- length (pending ?s) ≤ 1 ∧ _ =>
      assert (Hrun : runOps twoRecipients inProtocol sampleRun
                       (executeStartCampaign twoRecipients initialState) = Some s)
        by (vm_compute; reflexivity);
      destruct (one_timer_and_no_stale_callback twoRecipients initialState
                  sampleRun s handlesIssued_initialState eq_refl Hrun)
        as (H1 & H2 & _ & H4)
  end.
  split; [exact H1|]. split; [exact H2|].
  eapply (H4 [Fire 1; Elapse 2000] Pause _ _
            {| tid := 2; due := 5000; callback := SendCb 0 |} eq_refl);
    [by right; left | vm_compute; reflexivity | by left].
Defined.

(** C3, the claim fails for arbitrary handler calls: with two recipients, a
    skip right after the start (phase WaitingForNext) arms a second
    next-delay timer and leaves the first one armed; when the first fires it
    arms the send delay, and both slots are armed together. *)
Lemma both_slots_armed_outside_protocol :
  ∃ s, runOps twoRecipients anyCall [Skip; Fire 1]
         (executeStartCampaign twoRecipients initialState) = Some s
       ∧ slotArmed (timerRef s) s = true
       ∧ slotArmed (actionTimerRef s) s = true
       ∧ length (pending s) = 2.
Proof. eexists. split; [vm_compute; reflexivity|]. by vm_compute. Qed.

(** C6 holds on the sample configuration with three recipients. *)
Lemma three_recipients_full_run_witness :
  let s := run threeRecipients 6 (executeStartCampaign threeRecipients initialState) in
  campaignStatus s = finished
  ∧ length (List.filter infoOrSuccess (log s)) = 5
  ∧ length (log s) = 5.
Proof.
  destruct (three_recipients_full_run threeRecipients initialState _ _ _ 6
              eq_refl eq_refl eq_refl (le_n 6)) as (H1 & _ & _ & _ & _ & H2 & H3).
  exact (conj H1 (conj H2 H3)).
Defined.

(** C6, the claim fails: the full run with three recipients and no monitor
    recipient leaves five entries tagged INFO or SUCCESS, not four. *)
Lemma three_recipients_five_entries :
  let s := run threeRecipients 6 (executeStartCampaign threeRecipients initialState) in
  length (numbers threeRecipients) = 3
  ∧ monitorNumber threeRecipients = []
  ∧ campaignStatus s = finished ∧ pending s = []
  ∧ List.map status (log s) = [INFO; SUCCESS; SUCCESS; SUCCESS; INFO]
  ∧ length (List.filter infoOrSuccess (log s)) ≠ 4.
Proof. by vm_compute. Qed.

(** C7 holds for a pause two seconds into the first send delay of five: the
    later entries are the same, stamped two seconds later. *)
Lemma pause_resume_same_entries_later_witness :
  ∃ s new,
    runOps twoRecipients inProtocol [Fire 1; Elapse 2000]
      (executeStartCampaign twoRecipients initialState) = Some s
    ∧ log (run twoRecipients 4 s) = new ++ log s
    ∧ log (run twoRecipients 4
             (handleResumeCampaign twoRecipients (handlePauseCampaign s)))
      = List.map (later 2000) new
        ++ infoEntry 2000 (lit "Campaign resumed.")
        :: infoEntry 2000 (lit "Campaign paused.") :: log s
    ∧ campaignStatus (run twoRecipients 4 s) = finished.
Proof.
  assert (Hrun : ∃ s, runOps twoRecipients inProtocol [Fire 1; Elapse 2000]
                        (executeStartCampaign twoRecipients initialState) = Some s
                      ∧ campaignStatus s = running
                      ∧ pending s = [{| tid := 2; due := 5000; callback := SendCb 0 |}]
                      ∧ clock s = 2000%Z ∧ appState s = WaitingForSend)
    by (eexists; split; [vm_compute; reflexivity | by vm_compute]).
  destruct Hrun as (s & Hrun & Hst & Hq & Hck & Hph).
  destruct (pause_resume_same_entries_later twoRecipients initialState
              [Fire 1; Elapse 2000] s 4 handlesIssued_initialState
              eq_refl Hrun Hst)
    as (t & new & Hp & Hnever & Hagain & _ & _ & _ & Hend).
  exists s, new. rewrite Hq in Hp. injection Hp as <-.
  unfold fullDelay in Hagain. rewrite Hck, Hph in Hagain.
  split; [exact Hrun|]. split; [exact Hnever|]. split; [exact Hagain|].
  apply Hend. vm_compute. lia.
Defined.

(** C7, the claim fails: with one recipient, pausing and resuming right
    after the start gives a log of five entries, where never pausing gives
    three. *)
Lemma pause_resume_log_differs :
  let s := executeStartCampaign oneRecipient initialState in
  let never := run oneRecipient 4 s in
  let again := run oneRecipient 4 (handleResumeCampaign oneRecipient (handlePauseCampaign s)) in
  campaignStatus s = running
  ∧ campaignStatus never = finished ∧ campaignStatus again = finished
  ∧ List.map status (log never) = [INFO; SUCCESS; INFO]
  ∧ List.map status (log again) = [INFO; SUCCESS; INFO; INFO; INFO]
  ∧ log again ≠ log never.
Proof. by vm_compute. Qed.

(** * Further properties *)

(** ** What each function does to the log, the position and the timers *)

Section Effects.

Variable config : CampaignConfig.

Lemma processNextNumber_effect (i : nat) (s : State) :
  log (processNextNumber config i s) = finishEntries config i (clock s) ++ log s
  ∧ currentNumberIndex (processNextNumber config i s) = currentNumberIndex s
  ∧ clock (processNextNumber config i s) = clock s.
Proof.
  unfold finishEntries, infoEntry.
  destruct s as [ph st lg ix co er tr ar ck ni pe], tr, ar; exec_app;
    by destruct (length (numbers config) <=? i).
Qed.

Lemma startSendAction_effect (i : nat) (s : State) :
  log (startSendAction config i s) = log s
  ∧ currentNumberIndex (startSendAction config i s) = currentNumberIndex s
  ∧ clock (startSendAction config i s) = clock s
  ∧ appState (startSendAction config i s) = WaitingForSend
  ∧ campaignStatus (startSendAction config i s) = campaignStatus s
  ∧ actionTimerRef (startSendAction config i s) = Some (nextTimerId s)
  ∧ pending (startSendAction config i s)
    = pending s ++ [{| tid := nextTimerId s;
                       due := clock s + Z.max 0 (sendActionDelay config * 1000);
                       callback := SendCb i |}].
Proof. by destruct s. Qed.

Lemma sendCallback_effect (i : nat) (s : State) :
  log (sendCallback config i s)
  = finishEntries config (i + 1) (clock s) ++ monitorEntries config (clock s)
    ++ sentEntry config i (clock s) :: log s
  ∧ currentNumberIndex (sendCallback config i s) = i + 1
  ∧ clock (sendCallback config i s) = clock s.
Proof.
  unfold sendCallback.
  match goal with
  | |- context [processNextNumber config (i + 1) ?x] =>
      destruct (processNextNumber_effect (i + 1) x) as (-> & -> & ->)
  end.
  unfold monitorEntries, sentEntry, templateFor, attachmentFor, infoEntry.
  destruct s as [ph st lg ix co er tr ar ck ni pe]. exec_app.
  by destruct (truthy (monitorNumber config) && _).
Qed.

Lemma handleSkipNumber_effect (s : State) :
  log (handleSkipNumber config s)
  = finishEntries config (currentNumberIndex s + 1) (clock s)
    ++ skippedEntry config (currentNumberIndex s) (clock s) :: log s
  ∧ currentNumberIndex (handleSkipNumber config s) = currentNumberIndex s + 1.
Proof.
  unfold handleSkipNumber.
  match goal with
  | |- context [processNextNumber config ?j ?x] =>
      destruct (processNextNumber_effect j x) as (-> & -> & _)
  end.
  unfold skippedEntry.
  by destruct s as [ph st lg ix co er tr ar ck ni pe], ar.
Qed.

Lemma handlePauseCampaign_log (s : State) :
  log (handlePauseCampaign s) = infoEntry (clock s) (lit "Campaign paused.") :: log s.
Proof. by destruct s as [ph st lg ix co er tr ar ck ni pe], tr, ar. Qed.

Lemma handleStopCampaign_log (s : State) :
  log (handleStopCampaign s)
  = infoEntry (clock s) (lit "Campaign stopped by user.") :: log s.
Proof. by destruct s as [ph st lg ix co er tr ar ck ni pe], tr, ar. Qed.

Lemma handleResumeCampaign_log (s : State) :
  log (handleResumeCampaign config s)
  = (match appState s with
     | WaitingForNext => finishEntries config (currentNumberIndex s) (clock s)
     | _ => []
     end)
    ++ infoEntry (clock s) (lit "Campaign resumed.") :: log s
  ∧ currentNumberIndex (handleResumeCampaign config s) = currentNumberIndex s.
Proof.
  unfold handleResumeCampaign. destruct (appState s).
  - by destruct s.
  - match goal with
    | |- context [processNextNumber config ?j ?x] =>
        destruct (processNextNumber_effect j x) as (-> & -> & _)
    end.
    by destruct s.
  - match goal with
    | |- context [startSendAction config ?j ?x] =>
        destruct (startSendAction_effect j x) as (-> & -> & _)
    end.
    by destruct s.
  - by destruct s.
Qed.

Lemma cons_middle1 {A : Type} (x : list A) (z : A) (l : list A) :
  x ++ z :: l = (x ++ [z]) ++ l.
Proof. by rewrite <- app_assoc. Qed.

Lemma cons_middle2 {A : Type} (x y : list A) (z : A) (l : list A) :
  x ++ y ++ z :: l = (x ++ y ++ [z]) ++ l.
Proof. by rewrite <- !app_assoc. Qed.

(** What one operation puts on the log. *)
Lemma apply_log (op : Op) (s s' : State) :
  apply config op s = Some s' → ∃ new, log s' = new ++ log s.
Proof.
  destruct op; simpl.
  - destruct (0 <=? dt)%Z; [|done]. intros [= <-]. by exists [].
  - unfold fire. destruct (nextDue (pending s)) as [t|]; [|done].
    destruct (_ && _); [|done]. intros [= <-].
    unfold runCallback. destruct (callback t) as [i|i].
    + destruct (startSendAction_effect i
        (setQueue (nextTimerId s) (dequeue id (pending s)) s)) as (-> & _).
      by exists [].
    + destruct (sendCallback_effect i
        (setQueue (nextTimerId s) (dequeue id (pending s)) s)) as (-> & _).
      eexists. apply cons_middle2.
  - intros [= <-]. destruct (handleSkipNumber_effect s) as (-> & _).
    eexists. apply cons_middle1.
  - intros [= <-]. rewrite handlePauseCampaign_log. by eexists [_].
  - intros [= <-]. destruct (handleResumeCampaign_log s) as (-> & _).
    eexists. apply cons_middle1.
  - intros [= <-]. rewrite handleStopCampaign_log. by eexists [_].
Qed.

End Effects.

(** ** The log under the controller's operations *)

(** X1: timer callbacks, skip, pause, resume and stop only ever put entries
    in front of the log: whatever sequence of them is made, in whatever
    state, the log before is a suffix of the log after. *)
Theorem log_only_grows (config : CampaignConfig) (allow : State → Op → bool)
    (ops : list Op) (s s' : State) :
  runOps config allow ops s = Some s' → ∃ new, log s' = new ++ log s.
Proof.
  revert s. induction ops as [|op ops IH]; intros s; simpl.
  - intros [= <-]. by exists [].
  - destruct (allow s op); [|done].
    destruct (apply config op s) as [s1|] eqn:Hop; [|done].
    intros Hrun. destruct (IH s1 Hrun) as [new1 ->].
    destruct (apply_log config op s s1 Hop) as [new0 ->].
    exists (new1 ++ new0). by rewrite app_assoc.
Qed.

(** X1 on the sample run: the start entry is still at the back of the log. *)
Lemma log_only_grows_witness :
  ∃ s new,
    runOps twoRecipients inProtocol sampleRun
      (executeStartCampaign twoRecipients initialState) = Some s
    ∧ log s = new ++ [infoEntry 0 (lit "Campaign started.")].
Proof.
  eexists.
  assert (Hrun : runOps twoRecipients inProtocol sampleRun
                   (executeStartCampaign twoRecipients initialState) = Some _)
    by (vm_compute; reflexivity).
  destruct (log_only_grows twoRecipients inProtocol sampleRun _ _ Hrun) as [new Hnew].
  exists new. split; [exact Hrun | exact Hnew].
Defined.

(** X2: [executeStartCampaign] discards the log it finds and puts the
    position at 0. With no recipient it finishes the campaign at once: the
    log is "Campaign started." then "Campaign finished.", both slots are
    emptied and no timer is armed. With recipients the log is "Campaign
    started." alone, the status is running, and the first next-delay timer
    is armed to fire without any wait; the timers that were outstanding
    stay armed, [executeStartCampaign] cancels none. *)
Theorem executeStartCampaign_effect (config : CampaignConfig) (s : State) :
  let s' := executeStartCampaign config s in
  currentNumberIndex s' = 0
  ∧ (numbers config = [] →
       log s' = [infoEntry (clock s) (lit "Campaign finished.");
                 infoEntry (clock s) (lit "Campaign started.")]
       ∧ campaignStatus s' = finished ∧ appState s' = Finished
       ∧ timerRef s' = None ∧ actionTimerRef s' = None
       ∧ ∀ t, t ∈ pending s' → t ∈ pending s)
  ∧ (numbers config ≠ [] →
       log s' = [infoEntry (clock s) (lit "Campaign started.")]
       ∧ campaignStatus s' = running ∧ appState s' = WaitingForNext
       ∧ timerRef s' = Some (nextTimerId s)
       ∧ pending s' = pending s ++ [{| tid := nextTimerId s; due := clock s;
                                       callback := NextCb 0 |}]).
Proof.
  unfold infoEntry.
  destruct s as [ph st lg ix co er tr ar ck ni pe], tr, ar; exec_app;
    (destruct (numbers config) as [|n ns]; simpl;
     [ split_and!; try done; intros _; split_and!; try done;
       intros t Hin; repeat (apply dequeue_tid in Hin as [? Hin]); done
     | rewrite Z.add_0_r; by split_and! ]).
Qed.

(** X3: [clearTimers] cancels exactly the timers whose handles the two refs
    hold, and empties both refs; any other outstanding timer stays armed.
    Clearing twice is the same as clearing once. *)
Theorem clearTimers_cancels_held (s : State) :
  (∀ t, t ∈ pending (clearTimers s) ↔
        t ∈ pending s ∧ timerRef s ≠ Some (tid t) ∧ actionTimerRef s ≠ Some (tid t))
  ∧ timerRef (clearTimers s) = None
  ∧ actionTimerRef (clearTimers s) = None
  ∧ clearTimers (clearTimers s) = clearTimers s.
Proof.
  split_and!.
  - intros t. split; [apply pending_clearTimers|].
    destruct s as [ph st lg ix co er tr ar ck ni pe], tr, ar; exec_app;
      intros (Hin & H1 & H2); repeat apply dequeue_keeps; congruence.
  - apply clearTimers_frame.
  - apply clearTimers_frame.
  - by destruct s as [ph st lg ix co er tr ar ck ni pe], tr, ar.
Qed.

(** ** Updating delivery statuses *)

Lemma jsGet_insert_eq {A : Type} (l : list A) (k : Z) (x y : A) :
  jsGet l k = Some x → jsGet (<[Z.to_nat k := y]> l) k = Some y.
Proof.
  intros [Hk Hx]%jsGet_Some. unfold jsGet.
  destruct (Z.ltb_spec k 0); [lia|].
  apply list_lookup_insert_eq. by eapply lookup_lt_Some.
Qed.

Lemma jsGet_insert_ne {A : Type} (l : list A) (j k : Z) (y : A) :
  (0 <= k)%Z → j ≠ k → jsGet (<[Z.to_nat k := y]> l) j = jsGet l j.
Proof.
  intros Hk Hne. unfold jsGet. destruct (Z.ltb_spec j 0); [done|].
  apply list_lookup_insert_ne. lia.
Qed.

(** X4: delivery-status updates compose as writes to independent cells:
    at one index the last update wins, whatever came before, and updates at
    two different indices can be made in either order. *)
Theorem updateDeliveryStatus_compose (l : list LogEntry) (j k : Z)
    (a b : DeliveryStatus) :
  updateDeliveryStatus k b (updateDeliveryStatus k a l) = updateDeliveryStatus k b l
  ∧ (j ≠ k →
     updateDeliveryStatus j b (updateDeliveryStatus k a l)
     = updateDeliveryStatus k a (updateDeliveryStatus j b l)).
Proof.
  split.
  - unfold updateDeliveryStatus at 2 3.
    destruct (jsGet l k) as [e|] eqn:He; [|unfold updateDeliveryStatus; by rewrite He].
    destruct (data e) as [d|] eqn:Hd;
      [|unfold updateDeliveryStatus; by rewrite He, Hd].
    unfold updateDeliveryStatus.
    rewrite (jsGet_insert_eq l k e _ He). simpl.
    rewrite list_insert_insert_eq. by destruct e, d.
  - intros Hne. unfold updateDeliveryStatus at 2 4.
    destruct (jsGet l k) as [e|] eqn:He;
      [destruct (data e) as [d|] eqn:Hd|];
      (destruct (jsGet l j) as [e'|] eqn:He';
        [destruct (data e') as [d'|] eqn:Hd'|]);
      unfold updateDeliveryStatus; rewrite ?He, ?Hd, ?He', ?Hd'; try done.
    + pose proof (jsGet_Some _ _ _ He) as [Hk _].
      pose proof (jsGet_Some _ _ _ He') as [Hj _].
      rewrite !jsGet_insert_ne, He, Hd, He', Hd' by done.
      apply list_insert_insert_ne. lia.
    + pose proof (jsGet_Some _ _ _ He) as [Hk _].
      by rewrite jsGet_insert_ne, He', Hd' by done.
    + pose proof (jsGet_Some _ _ _ He) as [Hk _].
      by rewrite jsGet_insert_ne, He' by done.
    + pose proof (jsGet_Some _ _ _ He') as [Hj _].
      by rewrite jsGet_insert_ne, He, Hd by done.
    + pose proof (jsGet_Some _ _ _ He') as [Hj _].
      by rewrite jsGet_insert_ne, He by done.
Qed.

(** ** More on campaigns run within the operator's protocol *)

Section Campaign.

Variable config : CampaignConfig.

Lemma consistent_run (fuel : nat) (s : State) :
  consistent config s → consistent config (run config fuel s).
Proof.
  revert s. induction fuel as [|fuel IH]; intros s Hc; simpl; [done|].
  destruct (decide (campaignStatus s = running)) as [Hst|Hst].
  - destruct (fireNext_consistent config s Hc Hst) as (s' & -> & Hc' & _).
    by apply IH.
  - by rewrite (fireNext_none config s (consistent_quiescent config s Hc Hst)).
Qed.

Lemma consistent_finished (s : State) :
  consistent config s → campaignStatus s = finished →
  appState s = Finished ∧ currentNumberIndex s = length (numbers config)
  ∧ pending s = [].
Proof.
  intros [_ Hc] Hst. rewrite Hst in Hc.
  destruct (appState s); try done; by destruct Hc.
Qed.

(** X5: a running campaign that the operator leaves alone comes to its
    end: after at most two timer firings per recipient still to come, the
    status is finished, the phase Finished, the position the number of
    recipients, and no timer is outstanding. *)
Theorem running_campaign_finishes (s0 : State) (ops : list Op) (s : State)
    (fuel : nat) :
  handlesIssued s0 → pending s0 = [] →
  runOps config inProtocol ops (executeStartCampaign config s0) = Some s →
  campaignStatus s = running →
  2 * (length (numbers config) - currentNumberIndex s) ≤ fuel →
  let s' := run config fuel s in
  campaignStatus s' = finished ∧ appState s' = Finished
  ∧ currentNumberIndex s' = length (numbers config) ∧ pending s' = [].
Proof.
  intros Hh Hp Hrun Hst Hfuel. simpl.
  pose proof (consistent_runOps config ops _ s (consistent_start config s0 Hh Hp) Hrun)
    as Hc.
  destruct (run_finishes config fuel s Hc Hst) as [Hfin _].
  { unfold stepsLeft. lia. }
  destruct (consistent_finished _ (consistent_run fuel s Hc) Hfin) as (? & ? & ?).
  done.
Qed.

(** X6: within the protocol status and phase always go together: finished
    with Finished, stopped with Idle, running or paused with one of the two
    waiting phases; and the phase is Finished exactly when the position is
    the number of recipients. *)
Theorem status_and_phase_agree (s0 : State) (ops : list Op) (s : State) :
  handlesIssued s0 → pending s0 = [] →
  runOps config inProtocol ops (executeStartCampaign config s0) = Some s →
  (campaignStatus s = finished ↔ appState s = Finished)
  ∧ (campaignStatus s = stopped ↔ appState s = Idle)
  ∧ (campaignStatus s = running ∨ campaignStatus s = paused ↔
     appState s = WaitingForNext ∨ appState s = WaitingForSend)
  ∧ (appState s = Finished ↔ currentNumberIndex s = length (numbers config)).
Proof.
  intros Hh Hp Hrun.
  pose proof (consistent_runOps config ops _ s (consistent_start config s0 Hh Hp) Hrun)
    as [_ Hc].
  destruct (campaignStatus s), (appState s); try done;
    destruct Hc as [Hlt _]; split_and!; split;
      first [done | lia | intros [|]; done | auto].
Qed.

(** A stopped campaign with no timer: within the protocol only time can
    pass. *)
Lemma stopped_stays (ops : list Op) (s s' : State) :
  campaignStatus s = stopped → pending s = [] →
  runOps config inProtocol ops s = Some s' →
  ∃ time, s' = setClock time s.
Proof.
  revert s. induction ops as [|op ops IH]; intros s Hst Hp; simpl.
  - intros [= <-]. exists (clock s). by destruct s.
  - destruct (inProtocol s op) eqn:Hallow; [|done].
    destruct op; simpl in *; rewrite ?Hst in Hallow; try done.
    + destruct (0 <=? dt)%Z; [|done]. intros Hrun.
      destruct (IH (setClock (clock s + dt) s) Hst Hp Hrun) as [time ->].
      exists time. by destruct s.
    + unfold fire. by rewrite Hp.
Qed.

(** X7: stop ends the campaign for good. On a running or paused campaign
    it logs "Campaign stopped by user.", leaves the position where it was
    and cancels the outstanding timer; whatever follows within the protocol,
    nothing but the clock changes any more: no entry is logged, no timer
    fires, and the event loop left alone does nothing. *)
Theorem stop_is_final (s0 : State) (ops more : list Op) (s s' : State) :
  handlesIssued s0 → pending s0 = [] →
  runOps config inProtocol ops (executeStartCampaign config s0) = Some s →
  campaignStatus s = running ∨ campaignStatus s = paused →
  runOps config inProtocol more (handleStopCampaign s) = Some s' →
  log s' = infoEntry (clock s) (lit "Campaign stopped by user.") :: log s
  ∧ campaignStatus s' = stopped ∧ appState s' = Idle
  ∧ currentNumberIndex s' = currentNumberIndex s
  ∧ pending s' = []
  ∧ (∀ id, fire config id s' = None)
  ∧ (∀ fuel, run config fuel s' = s').
Proof.
  intros Hh Hp Hrun Hst Hmore.
  pose proof (consistent_runOps config ops _ s (consistent_start config s0 Hh Hp) Hrun)
    as Hc.
  destruct (handleStopCampaign_frame s) as (F1 & F2 & F3 & _ & _ & F6).
  rewrite (consistent_clearTimers config s Hc) in F6.
  destruct (stopped_stays more _ s' F1 F6 Hmore) as [time ->].
  pose proof (handleStopCampaign_log s) as Hlog.
  destruct (handleStopCampaign s) as [ph st lg ix co er tr ar ck ni pe].
  simpl in *. subst. split_and!; try done.
  intros fuel. by apply run_quiescent.
Qed.

End Campaign.

(** ** Every recipient gets one outcome, in order *)

Section Outcomes.

Variable config : CampaignConfig.








(** X9: what [currentActionInfo] shows while a send is being waited for is
    what gets logged when the send timer fires: the SUCCESS entry is for
    the number shown, with the message and the attachment shown; the only
    entries above it are INFO entries, and the position moves on by one. *)
Theorem preview_is_what_is_sent (s0 : State) (ops : list Op) (s : State)
    (id : positive) (s' : State) :
  handlesIssued s0 → pending s0 = [] →
  runOps config inProtocol ops (executeStartCampaign config s0) = Some s →
  appState s = WaitingForSend →
  fire config id s = Some s' →
  let info := currentActionInfo config s in
  ∃ r above,
    ActionInfo.number info = Some r
    ∧ log s' = above
               ++ successEntry (clock s) r (ActionInfo.message info)
                    (ActionInfo.file info) :: log s
    ∧ Forall (fun e => status e = INFO) above
    ∧ currentNumberIndex s' = currentNumberIndex s + 1.
Proof.
  intros Hh Hp0 Hrun Hph Hf. simpl.
  pose proof (consistent_runOps config ops _ s (consistent_start config s0 Hh Hp0) Hrun)
    as Hc.
  destruct (fire_pending config id s s' Hf) as (t & Hin & _).
  destruct (consistent_pending config s t Hc Hin) as (Hp & _ & Hlt & Hcase).
  destruct (fire_single config id s s' t Hp Hf) as [-> ->].
  destruct Hcase as [(Hph' & _)|(_ & _ & _ & ->)]; [congruence|].
  destruct (lookup_lt_is_Some_2 _ _ Hlt) as [r Hr].
  unfold runCallback.
  destruct (sendCallback_effect config (currentNumberIndex s)
    (setQueue (nextTimerId s) [] s)) as (-> & -> & _).
  exists r, (finishEntries config (currentNumberIndex s + 1) (clock s)
             ++ monitorEntries config (clock s)).
  split_and!; try done.
  - rewrite <- app_assoc. unfold sentEntry, successEntry. simpl. by rewrite Hr.
  - apply Forall_app. unfold finishEntries, monitorEntries. split.
    + destruct (_ <=? _); by repeat constructor.
    + destruct (_ && _); by repeat constructor.
Qed.

End Outcomes.

(** ** The log of an undisturbed campaign *)

Section Undisturbed.

Variable config : CampaignConfig.

Lemma sendCallback_timers (i : nat) (s : State) :
  pending s = [] →
  if length (numbers config) <=? i + 1
  then campaignStatus (sendCallback config i s) = finished
       ∧ appState (sendCallback config i s) = Finished
       ∧ pending (sendCallback config i s) = []
  else pending (sendCallback config i s)
       = [{| tid := nextTimerId s;
             due := clock s + Z.max 0 (delayBetween config * 1000);
             callback := NextCb (i + 1) |}].
Proof.
  intros Hp.
  assert (Hnz : (i + 1 =? 0) = false) by (apply Nat.eqb_neq; lia).
  destruct s as [ph st lg ix co er tr ar ck ni pe]; simpl in Hp; subst.
  unfold sendCallback, processNextNumber. rewrite Hnz.
  destruct (truthy (monitorNumber config) && _),
    (length (numbers config) <=? i + 1), tr, ar; by exec_app.
Qed.

(** One recipient's cycle: the next-delay timer fires, then the send timer. *)
Lemma cycle_step (fuel : nat) (s : State) (t : Timer) (i : nat) (r : jsstring) :
  pending s = [t] → callback t = NextCb i → numbers config !! i = Some r →
  ∃ s2 sent,
    sent = (Z.max (clock s) (due t) + Z.max 0 (sendActionDelay config * 1000))%Z
    ∧ run config (S (S fuel)) s = run config fuel s2
    ∧ log s2 = finishEntries config (i + 1) sent ++ monitorEntries config sent
               ++ successEntry sent r (templateFor config i) (attachmentFor config i)
               :: log s
    ∧ currentNumberIndex s2 = i + 1
    ∧ (if length (numbers config) <=? i + 1
       then campaignStatus s2 = finished ∧ appState s2 = Finished ∧ pending s2 = []
       else ∃ t2, pending s2 = [t2] ∧ callback t2 = NextCb (i + 1)
                  ∧ Z.max (clock s2) (due t2)
                    = (sent + Z.max 0 (delayBetween config * 1000))%Z).
Proof.
  intros Hp Hcb Hr.
  rewrite (run_step config (S fuel) s t Hp), Hcb. unfold runCallback at 1.
  set (M := Z.max (clock s) (due t)).
  set (q := setQueue (nextTimerId s) [] (setClock M s)).
  destruct (startSendAction_effect config i q) as (L1 & I1 & C1 & _ & _ & _ & P1).
  set (s1 := startSendAction config i q) in *.
  set (t1 := {| tid := nextTimerId q;
                due := clock q + Z.max 0 (sendActionDelay config * 1000);
                callback := SendCb i |}) in *.
  change (pending s1 = [t1]) in P1.
  rewrite (run_step config fuel s1 t1 P1).
  change (runCallback config (callback t1)) with (sendCallback config i).
  set (q1 := setQueue (nextTimerId s1) [] (setClock (Z.max (clock s1) (due t1)) s1)).
  assert (Hck : clock q1 = (M + Z.max 0 (sendActionDelay config * 1000))%Z).
  { change (clock q1) with (Z.max (clock s1) (due t1)). rewrite C1.
    change (clock q) with M.
    change (due t1) with (M + Z.max 0 (sendActionDelay config * 1000))%Z. lia. }
  destruct (sendCallback_effect config i q1) as (L2 & I2 & C2).
  pose proof (sendCallback_timers i q1 eq_refl) as T2.
  exists (sendCallback config i q1), (M + Z.max 0 (sendActionDelay config * 1000))%Z.
  split; [done|]. split; [done|].
  rewrite L2, I2, Hck. split_and!; try done.
  - change (log q1) with (log s1). rewrite L1.
    unfold sentEntry, successEntry. by rewrite Hr.
  - destruct (length (numbers config) <=? i + 1); [done|].
    eexists. split; [exact T2|]. split; [done|].
    rewrite C2. cbn [due]. rewrite Hck. lia.
Qed.

Lemma content_monitorEntries (time : Z) :
  List.map content (monitorEntries config time) = monitorContents config.
Proof. unfold monitorEntries, monitorContents. by destruct (_ && _). Qed.

Lemma run_cycles (rest : list jsstring) :
  ∀ (pre : list jsstring) (s : State) (t : Timer) (fuel : nat),
    numbers config = pre ++ rest → rest ≠ [] →
    pending s = [t] → callback t = NextCb (length pre) →
    2 * length rest ≤ fuel →
    campaignStatus (run config fuel s) = finished
    ∧ appState (run config fuel s) = Finished
    ∧ currentNumberIndex (run config fuel s) = length (numbers config)
    ∧ pending (run config fuel s) = []
    ∧ List.map content (log (run config fuel s))
      = cycleContents config (length pre) rest ++ List.map content (log s).
Proof.
  induction rest as [|r rest IH]; [done|].
  intros pre s t fuel Hn _ Hp Hcb Hfuel.
  destruct fuel as [|[|fuel]]; simpl in Hfuel; try lia.
  assert (Hr : numbers config !! length pre = Some r)
    by (rewrite Hn; apply list_lookup_middle; done).
  assert (Hlen : length (numbers config) = length pre + S (length rest))
    by (rewrite Hn, length_app; done).
  destruct (cycle_step fuel s t (length pre) r Hp Hcb Hr)
    as (s2 & sent & Hsent & -> & Hlog & Hix & Hnext).
  clear Hsent. unfold finishEntries in Hlog. destruct rest as [|r' rest'].
  - replace (length (numbers config) <=? length pre + 1) with true in *
      by (symmetry; apply Nat.leb_le; simpl in Hlen; lia).
    destruct Hnext as (Hst & Hph & Hq).
    rewrite run_quiescent by done. simpl in Hlen.
    split_and!; try done; [lia|].
    rewrite Hlog, !List.map_app, content_monitorEntries.
    cbn [cycleContents]. simpl. by rewrite <- app_assoc.
  - replace (length (numbers config) <=? length pre + 1) with false in *
      by (symmetry; apply Nat.leb_gt; simpl in Hlen; lia).
    destruct Hnext as (t2 & Hp2 & Hcb2 & _).
    destruct (IH (pre ++ [r]) s2 t2 fuel) as (Hst & Hph & Hpos & Hq & Hl);
      try done.
    { by rewrite Hn, <- app_assoc. }
    { by rewrite Hcb2, length_app. }
    { simpl in *. lia. }
    split_and!; try done.
    rewrite Hl, Hlog, !List.map_app, content_monitorEntries, length_app, Nat.add_1_r.
    change (cycleContents config (length pre) (r :: r' :: rest'))
      with (cycleContents config (S (length pre)) (r' :: rest')
            ++ monitorContents config
            ++ [successContent r (templateFor config (length pre))
                  (attachmentFor config (length pre))]).
    simpl. by rewrite <- !app_assoc.
Qed.

Lemma isSuccess_content (l : list LogEntry) :
  length (List.filter isSuccess l)
  = length (List.filter (fun x => bool_decide (x.1.2 = SUCCESS)) (List.map content l)).
Proof.
  induction l as [|e l IH]; [done|]. simpl. unfold isSuccess at 1.
  destruct (bool_decide (status e = SUCCESS)); simpl; by rewrite IH.
Qed.

Lemma cycleContents_successes (rest : list jsstring) :
  ∀ i : nat,
    length (List.filter (fun x => bool_decide (x.1.2 = SUCCESS))
              (cycleContents config i rest)) = length rest.
Proof.
  assert (Hmon : List.filter (fun x => bool_decide (x.1.2 = SUCCESS))
                   (monitorContents config) = []).
  { unfold monitorContents. by destruct (_ && _). }
  induction rest as [|r rest IH]; intros i; [done|].
  destruct rest as [|r' rest'].
  - simpl. rewrite List.filter_app, Hmon. done.
  - change (cycleContents config i (r :: r' :: rest'))
      with (cycleContents config (S i) (r' :: rest')
            ++ monitorContents config
            ++ [successContent r (templateFor config i) (attachmentFor config i)]).
    rewrite !List.filter_app, !length_app, IH, Hmon. simpl. lia.
Qed.

Lemma start_state (s0 : State) :
  pending s0 = [] →
  match numbers config with
  | [] =>
      campaignStatus (executeStartCampaign config s0) = finished
      ∧ appState (executeStartCampaign config s0) = Finished
      ∧ currentNumberIndex (executeStartCampaign config s0) = 0
      ∧ pending (executeStartCampaign config s0) = []
      ∧ log (executeStartCampaign config s0)
        = [infoEntry (clock s0) (lit "Campaign finished.");
           infoEntry (clock s0) (lit "Campaign started.")]
  | _ :: _ =>
      pending (executeStartCampaign config s0)
      = [{| tid := nextTimerId s0; due := clock s0; callback := NextCb 0 |}]
      ∧ clock (executeStartCampaign config s0) = clock s0
      ∧ log (executeStartCampaign config s0)
        = [infoEntry (clock s0) (lit "Campaign started.")]
  end.
Proof.
  intros Hp. unfold infoEntry.
  destruct s0 as [ph st lg ix co er tr ar ck ni pe], tr, ar;
    simpl in Hp; subst; exec_app;
    (destruct (numbers config); simpl; [done | by rewrite Z.add_0_r]).
Qed.

(** X10: what a campaign that runs undisturbed logs, for any number of
    recipients: started with no timer outstanding and given two timer
    firings per recipient, it ends finished at the last position with no
    timer left, and its log says, oldest first, "Campaign started.", then for
    each recipient in order one SUCCESS entry with the template and
    attachment of its index parity (followed by the monitor entry when a
    monitor is configured), then "Campaign finished." (messages, tags and
    payloads; the timestamps are left aside). There are as many SUCCESS
    entries as recipients. *)
Theorem undisturbed_campaign_log (s0 : State) (fuel : nat) :
  pending s0 = [] →
  2 * length (numbers config) ≤ fuel →
  let s := run config fuel (executeStartCampaign config s0) in
  campaignStatus s = finished ∧ appState s = Finished
  ∧ currentNumberIndex s = length (numbers config) ∧ pending s = []
  ∧ List.map content (log s)
    = match numbers config with
      | [] => [infoContent (lit "Campaign finished.")]
      | _ :: _ => cycleContents config 0 (numbers config)
      end ++ [infoContent (lit "Campaign started.")]
  ∧ length (List.filter isSuccess (log s)) = length (numbers config).
Proof.
  intros Hp Hfuel. simpl.
  pose proof (start_state s0 Hp) as Hstart.
  assert (Hmain :
    let s := run config fuel (executeStartCampaign config s0) in
    campaignStatus s = finished ∧ appState s = Finished
    ∧ currentNumberIndex s = length (numbers config) ∧ pending s = []
    ∧ List.map content (log s)
      = match numbers config with
        | [] => [infoContent (lit "Campaign finished.")]
        | _ :: _ => cycleContents config 0 (numbers config)
        end ++ [infoContent (lit "Campaign started.")]).
  { cbv zeta. destruct (numbers config) as [|r rest] eqn:Hn.
    - destruct Hstart as (H1 & H2 & H3 & H4 & H5).
      rewrite run_quiescent by done. rewrite H5. by split_and!.
    - destruct Hstart as (Hq & Hck & Hlog).
      destruct (run_cycles (r :: rest) [] (executeStartCampaign config s0)
                  {| tid := nextTimerId s0; due := clock s0; callback := NextCb 0 |}
                  fuel) as (H1 & H2 & H3 & H4 & H5); try done.
      rewrite Hn in H3. split_and!; try done.
      by rewrite H5, Hlog. }
  destruct Hmain as (H1 & H2 & H3 & H4 & H5). split_and!; try done.
  rewrite isSuccess_content, H5, List.filter_app, length_app. simpl.
  destruct (numbers config) as [|r rest]; [done|].
  rewrite cycleContents_successes. simpl. lia.
Qed.

End Undisturbed.

(** ** The validator's messages *)

Lemma lookup_cond_insert (b : bool) (k0 v0 : string) (m : gmap string string)
    (k v : string) :
  (if b then <[k0 := v0]> m else m) !! k = Some v → k = k0 ∨ m !! k = Some v.
Proof.
  destruct b; [|by right]. rewrite lookup_insert_Some.
  intros [[<- _]|[_ H]]; auto.
Qed.

(** X11: the errors of [validateConfig] name their cause. Under "numbers"
    the message is "At least one phone number is required." exactly when
    the recipient list is empty, and "All phone numbers must be in a valid
    format ..." exactly when it is not empty and holds an entry that does
    not match the pattern. The only keys ever set are the five field names,
    and the errors of an earlier attempt are replaced, not kept. *)
Theorem newErrors_name_their_cause (c : CampaignConfig) :
  (newErrors c !! "numbers" = Some "At least one phone number is required."
   ↔ numbers c = [])
  ∧ (newErrors c !! "numbers"
     = Some "All phone numbers must be in a valid format (e.g., +1234567890 or 1234567890)."
     ↔ numbers c ≠ [] ∧ ∃ n, n ∈ numbers c ∧ ¬ phoneLike n)
  ∧ (∀ k v, newErrors c !! k = Some v →
       k = "messages" ∨ k = "numbers" ∨ k = "delayBetween"
       ∨ k = "sendActionDelay" ∨ k = "monitorNumber")
  ∧ (∀ s1 s2, errors (snd (validateConfig c s1)) = errors (snd (validateConfig c s2))).
Proof.
  destruct (newErrors_fields c) as (_ & H2 & _).
  pose proof (badNumbers_spec c) as Hbad. unfold badNumbers in Hbad.
  split_and!.
  - rewrite H2. destruct (numbers c) as [|n ns]; simpl; [done|].
    split; [|done]. by destruct (_ || _).
  - rewrite H2. destruct (numbers c) as [|n ns] eqn:Hn; simpl in *.
    { split; [done|]. by intros [? _]. }
    destruct (_ || _).
    + split; [|done]. intros _. split; [done|].
      destruct Hbad as [Hbad _]. by destruct (Hbad eq_refl).
    + split; [done|]. intros [_ Hex].
      destruct Hbad as [_ Hbad]. by discriminate Hbad; right.
  - intros k v. unfold newErrors. cbv zeta.
    destruct (length (numbers c) =? 0),
      (existsb (fun n => negb (phoneTest n)) (numbers c));
      intros H;
      repeat (apply lookup_cond_insert in H as [->|H]; [by auto 10|]);
      try (apply lookup_insert_Some in H as [[<- _]|[_ H]]; [by auto 10|]);
      repeat (apply lookup_cond_insert in H as [->|H]; [by auto 10|]);
      by rewrite lookup_empty in H.
  - done.
Qed.

(** ** Starting again *)

(** X13: once a campaign run within the protocol is stopped or finished, no
    timer is outstanding, so a new start is a start like the first one: the
    campaign started from there keeps the position within the recipient
    list and never has more than one timer outstanding, whatever is done
    within the protocol. *)
Theorem restart_is_a_fresh_start (config : CampaignConfig) (s0 : State)
    (ops more : list Op) (s s' : State) :
  handlesIssued s0 → pending s0 = [] →
  runOps config inProtocol ops (executeStartCampaign config s0) = Some s →
  campaignStatus s = stopped ∨ campaignStatus s = finished →
  runOps config inProtocol more (executeStartCampaign config s) = Some s' →
  pending s = []
  ∧ log (executeStartCampaign config s)
    = finishEntries config 0 (clock s)
      ++ [infoEntry (clock s) (lit "Campaign started.")]
  ∧ currentNumberIndex s' ≤ length (numbers config)
  ∧ (currentNumberIndex s' = length (numbers config) ↔ appState s' = Finished)
  ∧ length (pending s') ≤ 1.
Proof.
  intros Hh Hp Hrun Hst Hmore.
  pose proof (consistent_runOps config ops _ s (consistent_start config s0 Hh Hp) Hrun)
    as Hc.
  assert (Hq : pending s = []).
  { apply (consistent_quiescent config s Hc). destruct Hst; congruence. }
  destruct Hc as [Hh' _].
  pose proof (consistent_runOps config more _ s'
                (consistent_start config s Hh' Hq) Hmore) as Hc'.
  split; [done|]. split.
  { unfold executeStartCampaign.
    match goal with
    | |- context [processNextNumber config 0 ?x] =>
        destruct (processNextNumber_effect config 0 x) as (-> & _)
    end.
    by destruct s. }
  assert (Hlen : length (pending s') ≤ 1).
  { destruct (pending s') as [|t q] eqn:Hq'; [simpl; lia|].
    assert (Hin : t ∈ pending s') by (rewrite Hq'; left).
    destruct (consistent_pending config s' t Hc' Hin) as (Hq'' & _).
    rewrite Hq'' in Hq'. injection Hq' as <-. simpl. lia. }
  destruct Hc' as [_ Hc'].
  destruct (campaignStatus s'), (appState s'); try done;
    destruct Hc' as [Hlt _]; split_and!; try lia; try done; split; (done || lia).
Qed.

(** ** The further properties on sample campaigns *)

(** The sample run is within the protocol and ends finished. *)
Lemma sampleRun_reaches :
  ∃ s, runOps twoRecipients inProtocol sampleRun
         (executeStartCampaign twoRecipients initialState) = Some s
       ∧ campaignStatus s = finished.
Proof. eexists. split; [vm_compute; reflexivity | by vm_compute]. Qed.

(** Five seconds into the first send delay of the campaign with two
    recipients: the send timer (handle 2) is due. *)
Lemma shortRun_reaches :
  ∃ s, runOps twoRecipients inProtocol [Fire 1; Elapse 5000]
         (executeStartCampaign twoRecipients initialState) = Some s
       ∧ campaignStatus s = running ∧ appState s = WaitingForSend
       ∧ currentNumberIndex s = 0 ∧ clock s = 5000%Z
       ∧ fire twoRecipients 2 s ≠ None.
Proof. eexists. split; [vm_compute; reflexivity | by vm_compute]. Qed.

(** X5 from five seconds into the first send delay. *)
Lemma running_campaign_finishes_witness :
  ∃ s, runOps twoRecipients inProtocol [Fire 1; Elapse 5000]
         (executeStartCampaign twoRecipients initialState) = Some s
       ∧ campaignStatus (run twoRecipients 4 s) = finished
       ∧ currentNumberIndex (run twoRecipients 4 s) = 2.
Proof.
  destruct shortRun_reaches as (s & Hrun & Hst & _ & Hix & _).
  exists s. split; [exact Hrun|].
  destruct (running_campaign_finishes twoRecipients initialState _ s 4
              handlesIssued_initialState eq_refl Hrun Hst) as (H1 & _ & H3 & _).
  { rewrite Hix. vm_compute. lia. }
  split; [exact H1 | exact H3].
Defined.

(** X6 at the end of the sample run. *)
Lemma status_and_phase_agree_witness :
  ∃ s, runOps twoRecipients inProtocol sampleRun
         (executeStartCampaign twoRecipients initialState) = Some s
       ∧ (campaignStatus s = finished ↔ appState s = Finished).
Proof.
  destruct sampleRun_reaches as (s & Hrun & _).
  exists s. split; [exact Hrun|].
  apply (status_and_phase_agree twoRecipients initialState sampleRun s
           handlesIssued_initialState eq_refl Hrun).
Defined.

(** X7 for a stop during the first send delay, followed by a long wait. *)
Lemma stop_is_final_witness :
  ∃ s s', runOps twoRecipients inProtocol [Fire 1; Elapse 5000]
            (executeStartCampaign twoRecipients initialState) = Some s
          ∧ runOps twoRecipients inProtocol [Elapse 100000; Elapse 5]
              (handleStopCampaign s) = Some s'
          ∧ log s' = infoEntry 5000 (lit "Campaign stopped by user.") :: log s
          ∧ campaignStatus s' = stopped.
Proof.
  destruct shortRun_reaches as (s & Hrun & Hst & _ & _ & Hck & _).
  exists s, (setClock 105005 (handleStopCampaign s)).
  assert (Hmore : runOps twoRecipients inProtocol [Elapse 100000; Elapse 5]
                    (handleStopCampaign s)
                  = Some (setClock 105005 (handleStopCampaign s))).
  { destruct (handleStopCampaign_frame s) as (F1 & _).
    pose proof (clearTimers_frame s) as (_ & _ & _ & _ & F5 & _).
    destruct s as [ph st lg ix co er tr ar ck ni pe], tr, ar;
      simpl in Hck; subst; reflexivity. }
  destruct (stop_is_final twoRecipients initialState _ _ s _
              handlesIssued_initialState eq_refl Hrun (or_introl Hst) Hmore)
    as (H1 & H2 & _).
  rewrite Hck in H1. by split_and!.
Defined.


(** X9 for the first recipient of the campaign with two recipients. *)
Lemma preview_is_what_is_sent_witness :
  ∃ s s' above,
    runOps twoRecipients inProtocol [Fire 1; Elapse 5000]
      (executeStartCampaign twoRecipients initialState) = Some s
    ∧ fire twoRecipients 2 s = Some s'
    ∧ log s' = above
               ++ successEntry 5000 (lit "+201000000001")
                    (lit "Hello! This is message template 1.") None :: log s.
Proof.
  destruct shortRun_reaches as (s & Hrun & _ & Hph & Hix & Hck & Hfire).
  destruct (fire twoRecipients 2 s) as [s'|] eqn:Hf; [|done].
  exists s, s'.
  destruct (preview_is_what_is_sent twoRecipients initialState _ s 2 s'
              handlesIssued_initialState eq_refl Hrun Hph Hf)
    as (r & above & Hr & Hlog & _).
  exists above. split; [exact Hrun|]. split; [exact Hf|].
  unfold currentActionInfo in Hr, Hlog. simpl in Hr, Hlog.
  rewrite Hix, Hck in *. vm_compute in Hr. injection Hr as <-. exact Hlog.
Defined.

(** X10 on the sample configuration with three recipients. *)
Lemma undisturbed_campaign_log_witness :
  let s := run threeRecipients 6 (executeStartCampaign threeRecipients initialState) in
  campaignStatus s = finished
  ∧ length (List.filter isSuccess (log s)) = 3.
Proof.
  destruct (undisturbed_campaign_log threeRecipients initialState 6 eq_refl)
    as (H1 & _ & _ & _ & _ & H6).
  { vm_compute. lia. }
  exact (conj H1 H6).
Defined.

(** X13 for a second campaign started after the sample run. *)
Lemma restart_is_a_fresh_start_witness :
  ∃ s s',
    runOps twoRecipients inProtocol sampleRun
      (executeStartCampaign twoRecipients initialState) = Some s
    ∧ runOps twoRecipients inProtocol [Fire 6; Elapse 5000; Fire 7]
        (executeStartCampaign twoRecipients s) = Some s'
    ∧ pending s = [] ∧ currentNumberIndex s' ≤ 2 ∧ length (pending s') ≤ 1.
Proof.
  assert (Hrun : ∃ s s',
            runOps twoRecipients inProtocol sampleRun
              (executeStartCampaign twoRecipients initialState) = Some s
            ∧ campaignStatus s = finished
            ∧ runOps twoRecipients inProtocol [Fire 6; Elapse 5000; Fire 7]
                (executeStartCampaign twoRecipients s) = Some s')
    by (eexists _, _; split; [vm_compute; reflexivity|];
        split; vm_compute; reflexivity).
  destruct Hrun as (s & s' & Hrun & Hst & Hmore).
  exists s, s'.
  destruct (restart_is_a_fresh_start twoRecipients initialState _ _ s s'
              handlesIssued_initialState eq_refl Hrun (or_intror Hst) Hmore)
    as (H1 & _ & H3 & _ & H5).
  by split_and!.
Defined.
